(** * project_control: activity retrieval and caching pipeline

    A shallow embedding of [github_client.py], [jira_client.py] and the
    fetch loops of [main.py].  Python objects built from JSON are records
    read at the schema the code subscripts; the mutable parts of a run
    (the in-memory cache of the GitHub client, the cache file, the
    requests sent, the lines printed) are threaded through a state and
    exception monad. *)

From Stdlib Require Import ZArith NArith Ascii String DecimalString.
From stdpp Require Import base option list gmap strings.

Local Open Scope string_scope.

(** ** Strings *)

Module PyStr.

(** [str(n)] for a non-negative [int]. *)
Definition of_nat (n : nat) : string :=
  NilZero.string_of_uint (Nat.to_uint n).

(** [str(z)] for an [int]. *)
Definition of_Z (z : Z) : string :=
  NilZero.string_of_int (Z.to_int z).

Fixpoint repeat (c : ascii) (n : nat) : string :=
  match n with
  | O => EmptyString
  | S k => String c (repeat c k)
  end.

(** ["%0wd" % n]: decimal, left-padded with zeros to width [w]. *)
Definition zfill (w : nat) (n : nat) : string :=
  let d := of_nat n in
  repeat "0"%char (w - String.length d) +:+ d.

(** [s.replace(c, by)] for a one-character pattern [c]. *)
Fixpoint replace (c : ascii) (by_ : string) (s : string) : string :=
  match s with
  | EmptyString => EmptyString
  | String a rest =>
      if Ascii.eqb a c then by_ +:+ replace c by_ rest
      else String a (replace c by_ rest)
  end.

(** [s.split(c)[-1]]: the text after the last occurrence of [c], the
    whole string when [c] does not occur. *)
Fixpoint last_field (c : ascii) (s : string) : string :=
  match s with
  | EmptyString => EmptyString
  | String a rest =>
      if Ascii.eqb a c then last_field c rest
      else
        if existsb (Ascii.eqb c) (list_ascii_of_string rest)
        then last_field c rest
        else s
  end.

(** [s[:n]]; a character is a byte of the UTF-8 text, so the cut is the
    interpreter's on ASCII text. *)
Definition take (n : nat) (s : string) : string := String.substring 0 n s.

(** The escape character of the ANSI colour sequences. *)
Definition esc : string := String (ascii_of_nat 27) EmptyString.

End PyStr.

(** ** Naive datetimes *)

(** A [datetime] without [tzinfo], as [datetime.now()] builds it. *)
Record datetime := mk_datetime {
  year : nat; month : nat; day : nat;
  hour : nat; minute : nat; second : nat; microsecond : nat
}.

(** The calendar day of a timestamp: [d.date()]. *)
Definition date (d : datetime) : nat * nat * nat := (year d, month d, day d).

Definition dt_fields (d : datetime) : list nat :=
  [year d; month d; day d; hour d; minute d; second d; microsecond d].

(** Python compares naive datetimes field by field, most significant
    first. *)
Fixpoint lex_compare (a b : list nat) : comparison :=
  match a, b with
  | [], [] => Eq
  | [], _ :: _ => Lt
  | _ :: _, [] => Gt
  | x :: a', y :: b' =>
      match Nat.compare x y with
      | Eq => lex_compare a' b'
      | c => c
      end
  end.

Definition dt_compare (a b : datetime) : comparison :=
  lex_compare (dt_fields a) (dt_fields b).

(** [a <= b] as the interpreter evaluates it. *)
Definition dt_leb (a b : datetime) : bool :=
  match dt_compare a b with Gt => false | _ => true end.

(** [start_date <= t <= end_date] *)
Definition in_range (start_date end_date t : datetime) : bool :=
  dt_leb start_date t && dt_leb t end_date.

(** [d.strftime('%Y%m%d')] *)
Definition strftime_Ymd (d : datetime) : string :=
  PyStr.zfill 4 (year d) +:+ PyStr.zfill 2 (month d) +:+ PyStr.zfill 2 (day d).

(** [d.strftime('%Y-%m-%d')] *)
Definition strftime_Y_m_d (d : datetime) : string :=
  PyStr.zfill 4 (year d) +:+ "-" +:+ PyStr.zfill 2 (month d) +:+ "-"
    +:+ PyStr.zfill 2 (day d).

(** [GitHubClient._get_cache_key] *)
Definition _get_cache_key (repo_name : string) (start_date end_date : datetime)
  : string :=
  repo_name +:+ "_" +:+ strftime_Ymd start_date +:+ "_" +:+ strftime_Ymd end_date.


(** [datetime.fromisoformat] yields a timestamp that carries the UTC
    offset (in seconds) of the text, if it had one. *)
Record parsed_datetime := mk_parsed {
  naive : datetime;
  tzinfo : option Z
}.

(** [d.replace(tzinfo=None)]: the wall-clock fields, offset dropped. *)
Definition replace_tzinfo_None (d : parsed_datetime) : datetime := naive d.

(** ** Exceptions *)

Inductive exn_class :=
| Exception | ValueError | RequestException | JSONDecodeError | OSError.

(** A raised exception; [exn_str] is [str(e)]. *)
Record exn := Raised {
  exn_type : exn_class;
  exn_str : string
}.

(** ** Wire formats (section 6 of the specification) *)

(** One element of the array answered by [GET /repos/{owner}/{repo}/pulls]. *)
Record pull := mk_pull {
  pull_number : Z;
  pull_title : string;
  pull_state : string;
  pull_created_at : string;
  pull_updated_at : string;
  pull_user_login : string
}.

(** A JSON value that is a string or [null]. *)
Inductive jstr :=
| JNull
| JString (s : string).

(** [changelog.histories[].items[]]; a key that is not in the object is
    [None]. *)
Record Item := mk_item {
  field : string;
  fromString : option jstr;
  toString : option jstr
}.

Record History := mk_history {
  created : string;
  items : option (list Item)
}.

Record Changelog := mk_changelog {
  histories : option (list History)
}.

Record Issue := mk_issue {
  issue_key : string;
  fields_summary : string;
  fields_status_name : string;
  fields_updated : string;
  issue_changelog : option Changelog
}.

(** The object answered by [GET /rest/api/3/search]. *)
Record SearchResult := mk_search {
  issues : option (list Issue)
}.

(** What [requests.get] returns.  [json] is [response.json()]: the body
    read at the schema above, or the exception raised when the body does
    not decode. *)
Record response (P : Type) := mk_response {
  status_code : Z;
  text : string;
  json : exn + P
}.
Arguments mk_response {P}.
Arguments status_code {P}.
Arguments text {P}.
Arguments json {P}.

Record request := mk_request {
  url : string;
  params : list (string * string);
  headers : list (string * string);
  auth : option (string * string)
}.

(** ** Normalised records *)

(** The dict appended to [all_prs]. *)
Record PullRequestRecord := mk_pr {
  number : Z;
  title : string;
  state : string;
  created_at : string;
  updated_at : string;
  repo : string;
  author : string
}.

(** The dict appended to [issues]. *)
Record IssueActivityRecord := mk_activity {
  key : string;
  summary : string;
  status : string;
  updated : string;
  changes : list string
}.

(** ** The state of a run *)

Inductive file :=
| Missing                  (* [os.path.exists] is false *)
| Unreadable               (* [open(.., 'r')] raises *)
| Content (s : string).

(** How writing the cache file fails, when it does.  The [try] of
    [_save_cache] covers the [open], the [json.dump] and the close. *)
Inductive write_fault :=
| OpenFails (ex : exn)
    (* [open(.., 'w')] raises: the file is left as it was *)
| WriteFails (written : string) (ex : exn).
    (* [json.dump] or the close raises after the open emptied the
       file: [written] is the text that got there *)

Record world := mk_world {
  _cache : gmap string (list PullRequestRecord);  (* [GitHubClient._cache] *)
  cache_file : file;                (* the file [.github_cache.json] *)
  open_w_error : option write_fault; (* how saving the file fails, if it does *)
  sent : list request;              (* requests issued so far, oldest first *)
  stdout : list string              (* lines printed so far, oldest first *)
}.

Definition set_cache (c : gmap string (list PullRequestRecord)) (w : world) : world :=
  mk_world c (cache_file w) (open_w_error w) (sent w) (stdout w).

Definition set_cache_file (f : file) (w : world) : world :=
  mk_world (_cache w) f (open_w_error w) (sent w) (stdout w).

Definition log_request (r : request) (w : world) : world :=
  mk_world (_cache w) (cache_file w) (open_w_error w) (sent w ++ [r])%list (stdout w).

Definition write_line (s : string) (w : world) : world :=
  mk_world (_cache w) (cache_file w) (open_w_error w) (sent w) (stdout w ++ [s])%list.

(** ** State and exception monad

    A computation runs from a [world] to a value or a raised exception,
    together with the world it leaves behind: what a call did before it
    raised stays done. *)

Definition M (A : Type) : Type := world -> (exn + A) * world.

Definition ret {A} (a : A) : M A := fun w => (inr a, w).

Definition bind {A B} (m : M A) (k : A -> M B) : M B :=
  fun w =>
    match m w with
    | (inr a, w') => k a w'
    | (inl e, w') => (inl e, w')
    end.

Definition raise {A} (e : exn) : M A := fun w => (inl e, w).

(** [try: m  except Exception as e: h e] *)
Definition try_except {A} (m : M A) (h : exn -> M A) : M A :=
  fun w =>
    match m w with
    | (inr a, w') => (inr a, w')
    | (inl e, w') => h e w'
    end.

Definition get_world : M world := fun w => (inr w, w).

Definition modify (f : world -> world) : M unit := fun w => (inr tt, f w).

Definition lift {A} (r : exn + A) : M A := fun w => (r, w).

Definition when (b : bool) (m : M unit) : M unit := if b then m else ret tt.

Declare Scope py_scope.
Delimit Scope py_scope with py.
Notation "x <- m ;; k" := (bind m (fun x => k))
  (at level 100, m at next level, right associativity) : py_scope.
Notation "m ;;; k" := (bind m (fun _ => k))
  (at level 100, right associativity) : py_scope.
Local Open Scope py_scope.

(** [print(s)] *)
Definition print (s : string) : M unit := modify (write_line s).

(** [for x in xs: acc = body(acc, x)], with the locals the body updates
    carried in [acc]. *)
Fixpoint for_each {X Acc} (body : Acc -> X -> M Acc) (xs : list X) (acc : Acc)
  : M Acc :=
  match xs with
  | [] => ret acc
  | x :: rest => acc' <- body acc x ;; for_each body rest acc'
  end.

(** The same loop over a body that only computes (no effect besides
    raising). *)
Fixpoint for_each_pure {X Acc} (body : Acc -> X -> exn + Acc) (xs : list X)
    (acc : Acc) : exn + Acc :=
  match xs with
  | [] => inr acc
  | x :: rest =>
      match body acc x with
      | inr acc' => for_each_pure body rest acc'
      | inl e => inl e
      end
  end.

(** ** Clients *)

Record GitHubClient := mk_github {
  token : string;
  base_url : string
}.

Record JiraClient := mk_jira {
  jira_base_url : string;
  username : string;
  api_token : string
}.

(** The double-quote character inside an f-string. *)
Definition dquote : string := String (ascii_of_nat 34) EmptyString.

(** The fixed ignore-list of [get_user_activities]. *)
Definition ignored_fields : list string := ["description"; "Bug Template"].

(** [x in xs] for a list of strings. *)
Definition str_in (x : string) (xs : list string) : bool :=
  existsb (String.eqb x) xs.

(** An f-string field holding a [str] or [None]. *)
Definition format_jstr (v : jstr) : string :=
  match v with
  | JNull => "None"
  | JString s => s
  end.

(** [item.get(k, 'None')] inside the f-string. *)
Definition get_or_None (v : option jstr) : string :=
  match v with
  | None => "None"
  | Some x => format_jstr x
  end.

(** The separator between the two values, as the literal stands in
    [jira_client.py]. *)
Definition separator : string := " â†’ ".

(** [change_desc], line 64 of [jira_client.py]. *)
Definition change_desc (item : Item) : string :=
  field item +:+ ": " +:+ get_or_None (fromString item) +:+ separator
    +:+ get_or_None (toString item).

(** ** Team configuration ([teams.py]) *)

Record Member := mk_member {
  email : string;
  github_user : string
}.

Record Project := mk_project {
  project_url : string
}.

Record Team := mk_team {
  team_name : string;
  members : list Member;
  projects : list Project
}.

Section Run.

(** The libraries and the remote services the code calls. *)
Variable fromisoformat : string -> exn + parsed_datetime.
(** [json.load] on the text of the cache file: the mapping the text
    encodes, or the exception raised on a text that is not JSON. *)
Variable json_load : string -> exn + gmap string (list PullRequestRecord).
Variable json_dump : gmap string (list PullRequestRecord) -> string.
(** The answer to the request issued after [n] earlier ones; [inl] when
    [requests.get] itself raises. *)
Variable github_api : nat -> request -> exn + response (list pull).
Variable jira_api : nat -> request -> exn + response SearchResult.

(** [Exception(f"{service} API error: {response.status_code} - {response.text}")] *)
Definition api_error {P} (service : string) (r : response P) : exn :=
  Raised Exception
    (service +:+ " API error: " +:+ PyStr.of_Z (status_code r) +:+ " - " +:+ text r).

(** The green line of [get_all_pull_requests] on a cache hit. *)
Definition cache_note (repo_name : string) : string :=
  PyStr.esc +:+ "[92m[CACHE] Using cached data for " +:+ repo_name
    +:+ PyStr.esc +:+ "[0m".

(** The yellow line printed before a request. *)
Definition api_note (what : string) : string :=
  PyStr.esc +:+ "[93m[API] " +:+ what +:+ PyStr.esc +:+ "[0m".

(** The cyan line of [debug_print]. *)
Definition debug_note (message : string) : string :=
  PyStr.esc +:+ "[96m[DEBUG] " +:+ message +:+ PyStr.esc +:+ "[0m".

(** [requests.get(url, params=.., headers=.., auth=..)] *)
Definition requests_get {P} (api : nat -> request -> exn + response P)
    (r : request) : M (response P) :=
  fun w => (api (length (sent w)) r, log_request r w).

(** [datetime.fromisoformat(s.replace('Z', '+00:00'))] *)
Definition parse_timestamp (s : string) : exn + parsed_datetime :=
  fromisoformat (PyStr.replace "Z" "+00:00" s).

(** [datetime.fromisoformat(s.replace('Z', '+00:00')).replace(tzinfo=None)]:
    the update timestamp the range test looks at. *)
Definition timestamp_of (s : string) : exn + datetime :=
  match parse_timestamp s with
  | inl e => inl e
  | inr d => inr (replace_tzinfo_None d)
  end.

(** *** github_client.py *)

(** [GitHubClient._load_cache] *)
Definition _load_cache : M (gmap string (list PullRequestRecord)) :=
  try_except
    (w <- get_world ;;
     match cache_file w with
     | Missing => ret ∅
     | Unreadable => raise (Raised OSError "Permission denied")
     | Content s => lift (json_load s)
     end)
    (fun _ => ret ∅).

(** [GitHubClient.__init__]; the argument is [os.getenv("GITHUB_TOKEN")]. *)
Definition GitHubClient_init (GITHUB_TOKEN : option string) : M GitHubClient :=
  match GITHUB_TOKEN with
  | None | Some EmptyString =>
      raise (Raised ValueError "GITHUB_TOKEN environment variable is required")
  | Some t =>
      c <- _load_cache ;;
      modify (set_cache c) ;;;
      ret (mk_github t "https://api.github.com")
  end.

(** The warning of line 37. *)
Definition save_warning (e : exn) : string :=
  "Warning: Could not save cache: " +:+ exn_str e.

(** [GitHubClient._save_cache] *)
Definition _save_cache : M unit :=
  try_except
    (w <- get_world ;;
     match open_w_error w with
     | Some (OpenFails ex) => raise ex
     | Some (WriteFails written ex) =>
         modify (set_cache_file (Content written)) ;;; raise ex
     | None => modify (set_cache_file (Content (json_dump (_cache w))))
     end)
    (fun e => print (save_warning e)).

(** The dict built at lines 83-91. *)
Definition normalize (repo_name : string) (pr : pull) : PullRequestRecord :=
  mk_pr (pull_number pr) (pull_title pr) (pull_state pr) (pull_created_at pr)
        (pull_updated_at pr) repo_name (pull_user_login pr).

(** The body of the loop at lines 80-91. *)
Definition keep_pull (repo_name : string) (start_date end_date : datetime)
    (all_prs : list PullRequestRecord) (pr : pull)
  : exn + list PullRequestRecord :=
  match timestamp_of (pull_updated_at pr) with
  | inl e => inl e
  | inr pr_date =>
      if in_range start_date end_date pr_date
      then inr (all_prs ++ [normalize repo_name pr])%list
      else inr all_prs
  end.

Definition pulls_request (self : GitHubClient) (repo_name : string) : request :=
  let owner := "aziontech" in
  mk_request
    (base_url self +:+ "/repos/" +:+ owner +:+ "/" +:+ repo_name +:+ "/pulls")
    [("state", "all"); ("sort", "updated"); ("direction", "desc");
     ("per_page", "100")]
    [("Authorization", "token " +:+ token self);
     ("Accept", "application/vnd.github.v3+json")]
    None.

(** [GitHubClient.get_all_pull_requests] *)
Definition get_all_pull_requests (self : GitHubClient) (repo_name : string)
    (start_date end_date : datetime) (verbose : bool)
  : M (list PullRequestRecord) :=
  let cache_key := _get_cache_key repo_name start_date end_date in
  w <- get_world ;;
  match _cache w !! cache_key with
  | Some cached =>
      when verbose (print (cache_note repo_name)) ;;;
      ret cached
  | None =>
      let rq := pulls_request self repo_name in
      when verbose (print (api_note ("GET " +:+ url rq))) ;;;
      response <- requests_get github_api rq ;;
      if negb (status_code response =? 200)%Z
      then raise (api_error "GitHub" response)
      else
        prs_data <- lift (json response) ;;
        all_prs <- lift (for_each_pure (keep_pull repo_name start_date end_date)
                           prs_data []) ;;
        w' <- get_world ;;
        modify (set_cache (<[cache_key := all_prs]> (_cache w'))) ;;;
        _save_cache ;;;
        ret all_prs
  end.

(** [GitHubClient.get_user_pull_requests] *)
Definition get_user_pull_requests (self : GitHubClient) (repo_name : string)
    (username : string) (start_date end_date : datetime) (verbose : bool)
  : M (list PullRequestRecord) :=
  all_prs <- get_all_pull_requests self repo_name start_date end_date verbose ;;
  let user_prs := List.filter (fun pr => String.eqb (author pr) username) all_prs in
  ret user_prs.

(** *** jira_client.py *)

(** [JiraClient.__init__]; the arguments are the three [os.getenv] reads. *)
Definition JiraClient_init (JIRA_BASE_URL JIRA_USERNAME JIRA_API_TOKEN : option string)
  : M JiraClient :=
  match JIRA_BASE_URL, JIRA_USERNAME, JIRA_API_TOKEN with
  | Some (String a u), Some (String b n), Some (String c t) =>
      ret (mk_jira (String a u) (String b n) (String c t))
  | _, _, _ =>
      raise (Raised ValueError
        "Missing Jira credentials. Set JIRA_BASE_URL, JIRA_USERNAME, and JIRA_API_TOKEN")
  end.

(** Lines 61-65: one item of a retained history entry. *)
Definition add_change (recent_changes : list string) (item : Item)
  : exn + list string :=
  if str_in (field item) ignored_fields then inr recent_changes
  else inr (recent_changes ++ [change_desc item])%list.

(** Lines 57-65: one history entry. *)
Definition scan_history (start_date end_date : datetime)
    (recent_changes : list string) (history : History) : exn + list string :=
  match timestamp_of (created history) with
  | inl e => inl e
  | inr history_date =>
      if in_range start_date end_date history_date
      then for_each_pure add_change (default [] (items history)) recent_changes
      else inr recent_changes
  end.

(** Lines 54-65: the [changes] of one issue. *)
Definition recent_changes_of (start_date end_date : datetime) (issue : Issue)
  : exn + list string :=
  match issue_changelog issue with
  | Some (mk_changelog (Some hs)) =>
      for_each_pure (scan_history start_date end_date) hs []
  | _ => inr []
  end.

(** Lines 53-73: the body of the loop over the issues. *)
Definition add_issue (start_date end_date : datetime)
    (acc : list IssueActivityRecord) (issue : Issue)
  : exn + list IssueActivityRecord :=
  match recent_changes_of start_date end_date issue with
  | inl e => inl e
  | inr recent_changes =>
      inr (acc ++ [mk_activity (issue_key issue) (fields_summary issue)
                     (fields_status_name issue) (fields_updated issue)
                     recent_changes])%list
  end.

(** The JQL text of line 26. *)
Definition jql_of (email : string) (start_date end_date : datetime) : string :=
  let start_str := strftime_Y_m_d start_date in
  let end_str := strftime_Y_m_d end_date in
  "assignee = " +:+ dquote +:+ email +:+ dquote
    +:+ " AND updated >= " +:+ dquote +:+ start_str +:+ dquote
    +:+ " AND updated <= " +:+ dquote +:+ end_str +:+ dquote.

Definition search_request (self : JiraClient) (jql : string) : request :=
  mk_request
    (jira_base_url self +:+ "/rest/api/3/search")
    [("jql", jql); ("fields", "key,summary,status,assignee,updated");
     ("expand", "changelog"); ("maxResults", "100")]
    [("Accept", "application/json")]
    (Some (username self, api_token self)).

(** [JiraClient.get_user_activities] *)
Definition get_user_activities (self : JiraClient) (email : string)
    (start_date end_date : datetime) (verbose : bool)
  : M (list IssueActivityRecord) :=
  let jql := jql_of email start_date end_date in
  when verbose (print (api_note ("Jira JQL: " +:+ jql))) ;;;
  response <- requests_get jira_api (search_request self jql) ;;
  if negb (status_code response =? 200)%Z
  then raise (api_error "Jira" response)
  else
    data <- lift (json response) ;;
    lift (for_each_pure (add_issue start_date end_date)
            (default [] (issues data)) []).

(** *** main.py *)

(** [debug_print] *)
Definition debug_print (message : string) (verbose : bool) : M unit :=
  when verbose (print (debug_note message)).

(** [project["url"].split("/")[-1]] *)
Definition repo_name_of (project : Project) : string :=
  PyStr.last_field "/" (project_url project).

(** [enumerate(xs, 1)] *)
Definition enumerate1 {X} (xs : list X) : list (nat * X) :=
  combine (seq 1 (length xs)) xs.

Definition newline : string := String (ascii_of_nat 10) EmptyString.

(** The warning of line 78. *)
Definition cache_warning (repo_name : string) (e : exn) : string :=
  "⚠️ Warning: Could not cache " +:+ repo_name +:+ ": " +:+ exn_str e.

(** The report of line 126. *)
Definition repo_error (repo_name : string) (e : exn) : string :=
  "❌ Error fetching from " +:+ repo_name +:+ ": " +:+ exn_str e.

(** The report of line 107. *)
Definition jira_error (e : exn) : string :=
  "❌ Error fetching Jira activities: " +:+ exn_str e.

(** The header of line 88. *)
Definition member_header (member : Member) : string :=
  newline +:+ "👤 " +:+ email member.

(** Lines 71-78: one round of the pre-loading loop. *)
Definition preload_repo (github_client : GitHubClient)
    (start_date end_date : datetime) (verbose : bool) (_ : unit)
    (project : Project) : M unit :=
  let repo_name := repo_name_of project in
  try_except
    (debug_print ("Caching PRs for repository: " +:+ repo_name) verbose ;;;
     _ <- get_all_pull_requests github_client repo_name start_date end_date verbose ;;
     ret tt)
    (fun e =>
       debug_print ("Error caching " +:+ repo_name +:+ ": " +:+ exn_str e) verbose ;;;
       print (cache_warning repo_name e)).

(** Lines 92-107: the issue-tracker part of one member. *)
Definition jira_section (jira_client : JiraClient) (member : Member)
    (start_date end_date : datetime) (verbose only_title : bool) : M unit :=
  debug_print ("Fetching Jira activities for " +:+ email member +:+ "...") verbose ;;;
  try_except
    (jira_issues <- get_user_activities jira_client (email member) start_date
                      end_date verbose ;;
     debug_print ("Found " +:+ PyStr.of_nat (length jira_issues)
                    +:+ " Jira issues for " +:+ email member) verbose ;;;
     match jira_issues with
     | _ :: _ =>
         print "📋 Jira Activities:" ;;;
         for_each
           (fun _ issue =>
              print ("  • " +:+ key issue +:+ ": " +:+ summary issue) ;;;
              if negb only_title && negb (bool_decide (changes issue = []))
              then for_each (fun _ change => print ("    └─ " +:+ change))
                     (changes issue) tt
              else ret tt)
           jira_issues tt
     | [] => print "📋 No Jira activities found"
     end)
    (fun e => print (jira_error e)).

(** Lines 115-126: one round of the loop over the repositories; the
    local [all_prs] is the accumulator. *)
Definition fetch_repo (github_client : GitHubClient) (github_user : string)
    (start_date end_date : datetime) (verbose : bool) (n_projects : nat)
    (all_prs : list PullRequestRecord) (jp : nat * Project)
  : M (list PullRequestRecord) :=
  let repo_name := repo_name_of jp.2 in
  debug_print ("Checking repo " +:+ PyStr.of_nat jp.1 +:+ "/"
                 +:+ PyStr.of_nat n_projects +:+ ": " +:+ repo_name) verbose ;;;
  try_except
    (debug_print ("Fetching PRs from " +:+ repo_name +:+ " for " +:+ github_user
                    +:+ "...") verbose ;;;
     prs <- get_user_pull_requests github_client repo_name github_user start_date
              end_date verbose ;;
     debug_print ("Found " +:+ PyStr.of_nat (length prs) +:+ " PRs in "
                    +:+ repo_name) verbose ;;;
     ret (all_prs ++ prs)%list)
    (fun e =>
       debug_print ("Error in " +:+ repo_name +:+ ": " +:+ exn_str e) verbose ;;;
       print (repo_error repo_name e) ;;;
       ret all_prs).

(** Lines 113-126: [all_prs] after the loop over the repositories. *)
Definition collect_prs (github_client : GitHubClient) (github_user : string)
    (start_date end_date : datetime) (verbose : bool) (team : Team)
  : M (list PullRequestRecord) :=
  for_each
    (fetch_repo github_client github_user start_date end_date verbose
       (length (projects team)))
    (enumerate1 (projects team)) [].

(** Line 133. *)
Definition pr_line (pr : PullRequestRecord) : string :=
  "  • [" +:+ repo pr +:+ "] PR #" +:+ PyStr.of_Z (number pr) +:+ ": "
    +:+ PyStr.take 50 (title pr) +:+ "... (" +:+ state pr +:+ ")".

(** Lines 110-139: the code-hosting part of one member. *)
Definition github_section (github_client : GitHubClient) (member : Member)
    (start_date end_date : datetime) (verbose : bool) (team : Team) : M unit :=
  let github_user := github_user member in
  debug_print ("Fetching GitHub Pull Requests for " +:+ github_user +:+ "...")
    verbose ;;;
  debug_print ("Will check " +:+ PyStr.of_nat (length (projects team))
                 +:+ " repositories...") verbose ;;;
  try_except
    (all_prs <- collect_prs github_client github_user start_date end_date
                  verbose team ;;
     debug_print ("Total PRs found for " +:+ github_user +:+ ": "
                    +:+ PyStr.of_nat (length all_prs)) verbose ;;;
     match all_prs with
     | _ :: _ =>
         print "🔄 Pull Requests:" ;;;
         for_each (fun _ pr => print (pr_line pr)) all_prs tt
     | [] => print "🔄 No Pull Requests found"
     end)
    (fun e =>
       debug_print ("GitHub API error for " +:+ github_user +:+ ": " +:+ exn_str e)
         verbose ;;;
       print ("❌ Error fetching GitHub activities: " +:+ exn_str e)).

(** Lines 84-141: one round of the loop over the members. *)
Definition process_member (jira_client : JiraClient) (github_client : GitHubClient)
    (start_date end_date : datetime) (verbose only_title : bool) (team : Team)
    (_ : unit) (im : nat * Member) : M unit :=
  let member := im.2 in
  let progress := PyStr.of_nat im.1 +:+ "/" +:+ PyStr.of_nat (length (members team)) in
  print (member_header member) ;;;
  print (PyStr.repeat "-" 40) ;;;
  debug_print ("Processing member " +:+ progress +:+ ": " +:+ email member
                 +:+ " (@" +:+ github_user member +:+ ")") verbose ;;;
  jira_section jira_client member start_date end_date verbose only_title ;;;
  github_section github_client member start_date end_date verbose team ;;;
  debug_print ("Completed processing member " +:+ progress +:+ ": "
                 +:+ email member) verbose.

(** Lines 84-141: the loop over the members. *)
Definition process_members (jira_client : JiraClient) (github_client : GitHubClient)
    (start_date end_date : datetime) (verbose only_title : bool) (team : Team)
  : M unit :=
  for_each
    (process_member jira_client github_client start_date end_date verbose
       only_title team)
    (enumerate1 (members team)) tt.

(** [main], from line 51 on: the team is the one the slug selected, and
    the range is the one computed from the clock and [--days]. *)
Definition main (team : Team) (start_date end_date : datetime)
    (verbose only_title : bool)
    (JIRA_BASE_URL JIRA_USERNAME JIRA_API_TOKEN GITHUB_TOKEN : option string)
  : M unit :=
  debug_print ("Found team: " +:+ team_name team +:+ " with "
                 +:+ PyStr.of_nat (length (members team)) +:+ " members and "
                 +:+ PyStr.of_nat (length (projects team)) +:+ " projects") verbose ;;;
  print ("Fetching activities for team '" +:+ team_name team +:+ "' from "
           +:+ strftime_Y_m_d start_date +:+ " to " +:+ strftime_Y_m_d end_date) ;;;
  print (PyStr.repeat "-" 80) ;;;
  debug_print "Initializing Jira client..." verbose ;;;
  jira_client <- JiraClient_init JIRA_BASE_URL JIRA_USERNAME JIRA_API_TOKEN ;;
  debug_print "Initializing GitHub client..." verbose ;;;
  github_client <- GitHubClient_init GITHUB_TOKEN ;;
  debug_print "Pre-loading GitHub cache for all repositories..." verbose ;;;
  for_each (preload_repo github_client start_date end_date verbose)
    (projects team) tt ;;;
  debug_print "Cache pre-loading completed!" verbose ;;;
  debug_print ("Starting to process " +:+ PyStr.of_nat (length (members team))
                 +:+ " team members...") verbose ;;;
  process_members jira_client github_client start_date end_date verbose
    only_title team.

(** ** Vocabulary of the properties *)

(** The order on timestamps, most significant field first. *)
Inductive lex_le : list nat -> list nat -> Prop :=
| lex_le_nil b : lex_le [] b
| lex_le_lt x y a b : x < y -> lex_le (x :: a) (y :: b)
| lex_le_eq x a b : lex_le a b -> lex_le (x :: a) (x :: b).

(** [s <= t] on naive timestamps. *)
Definition dt_le (a b : datetime) : Prop := lex_le (dt_fields a) (dt_fields b).

(** The item whose timestamp text is [ts] passes the range test. *)
Definition retained (start_date end_date : datetime) (ts : string) : bool :=
  match timestamp_of ts with
  | inr t => in_range start_date end_date t
  | inl _ => false
  end.

(** Every timestamp text of the list parses. *)
Definition all_parse (tss : list string) : Prop :=
  Forall (fun ts => exists t, timestamp_of ts = inr t) tss.

(** [issue["changelog"]["histories"]] when both keys are there, else
    nothing to scan. *)
Definition histories_of (issue : Issue) : list History :=
  match issue_changelog issue with
  | Some (mk_changelog (Some hs)) => hs
  | _ => []
  end.

(** [history.get("items", [])] *)
Definition items_of (history : History) : list Item :=
  default [] (items history).

Definition is_ignored (item : Item) : bool := str_in (field item) ignored_fields.

(** The items of an issue that are rendered into [changes]: those of the
    history entries in range, minus the ignored fields. *)
Definition emitted_items (start_date end_date : datetime) (issue : Issue)
  : list Item :=
  List.filter (fun item => negb (is_ignored item))
    (flat_map items_of
       (List.filter (fun h => retained start_date end_date (created h))
          (histories_of issue))).

(** The record an issue is normalised to. *)
Definition activity_of (start_date end_date : datetime) (issue : Issue)
  : IssueActivityRecord :=
  mk_activity (issue_key issue) (fields_summary issue) (fields_status_name issue)
    (fields_updated issue)
    (map change_desc (emitted_items start_date end_date issue)).

(** The rendering section 4.3 of the specification words. *)
Definition change_desc_spec (item : Item) : string :=
  field item +:+ ": " +:+ get_or_None (fromString item) +:+ " → "
    +:+ get_or_None (toString item).

(** The world after a line that is printed only when [verbose]. *)
Definition say (verbose : bool) (line : string) (w : world) : world :=
  if verbose then write_line line w else w.

(** The world [_save_cache] leaves. *)
Definition saved (w : world) : world :=
  match open_w_error w with
  | Some (OpenFails ex) => write_line (save_warning ex) w
  | Some (WriteFails written ex) =>
      write_line (save_warning ex) (set_cache_file (Content written) w)
  | None => set_cache_file (Content (json_dump (_cache w))) w
  end.

(** The world in which [get_all_pull_requests] has sent its request. *)
Definition requested (self : GitHubClient) (repo_name : string) (verbose : bool)
    (w : world) : world :=
  let rq := pulls_request self repo_name in
  log_request rq (say verbose (api_note ("GET " +:+ url rq)) w).

(** The world in which [get_user_activities] has sent its request. *)
Definition searched (self : JiraClient) (email : string)
    (start_date end_date : datetime) (verbose : bool) (w : world) : world :=
  let jql := jql_of email start_date end_date in
  log_request (search_request self jql) (say verbose (api_note ("Jira JQL: " +:+ jql)) w).

(** The first exception of a sequence of steps, or all their results. *)
Fixpoint gather {X Y} (step : X -> exn + list Y) (xs : list X) : exn + list Y :=
  match xs with
  | [] => inr []
  | x :: rest =>
      match step x with
      | inl e => inl e
      | inr ys =>
          match gather step rest with
          | inl e => inl e
          | inr zs => inr (ys ++ zs)%list
          end
      end
  end.

(** A computation ends without raising, whatever the world. *)
Definition never_raises {A} (m : M A) : Prop :=
  forall w, exists a w', m w = (inr a, w').

(** The lines a computation adds to the output all satisfy [P]. *)
Definition emits {A} (P : string -> Prop) (m : M A) : Prop :=
  forall w, exists extra,
    stdout (m w).2 = (stdout w ++ extra)%list /\ Forall P extra.

(** The lines printed between two worlds. *)
Definition printed_since (w w' : world) : list string :=
  drop (length (stdout w)) (stdout w').

Definition is_repo_error (line : string) : bool :=
  String.prefix "❌ Error fetching from " line.

Definition is_member_header (line : string) : bool :=
  String.prefix (newline +:+ "👤 ") line.

(** A line that is neither a per-repository error report nor a member
    header. *)
Definition plain (line : string) : Prop :=
  is_repo_error line = false /\ is_member_header line = false.

(** A line that is not a member header. *)
Definition no_header (line : string) : Prop := is_member_header line = false.


(** The world in which round [jp] of the repository loop calls
    [get_user_pull_requests], having started in [w]. *)
Definition at_fetch (github_user : string) (verbose : bool) (n_projects : nat)
    (jp : nat * Project) (w : world) : world :=
  let repo_name := repo_name_of jp.2 in
  ((debug_print ("Checking repo " +:+ PyStr.of_nat jp.1 +:+ "/"
                   +:+ PyStr.of_nat n_projects +:+ ": " +:+ repo_name) verbose ;;;
    debug_print ("Fetching PRs from " +:+ repo_name +:+ " for " +:+ github_user
                   +:+ "...") verbose) w).2.




(** The cache file cannot be loaded: it is missing, cannot be opened, or
    its text is not JSON. *)
Definition unusable (f : file) : Prop :=
  f = Missing \/ f = Unreadable
  \/ exists text ex, f = Content text /\ json_load text = inl ex.

(** C7 as worded, for the code-hosting fetch started in [w]: it raises
    exactly when the remote call answers with a status other than 200. *)
Definition raises_iff_bad_status (self : GitHubClient) (repo_name : string)
    (start_date end_date : datetime) (verbose : bool) (w : world) : Prop :=
  (exists e w', get_all_pull_requests self repo_name start_date end_date verbose w
                = (inl e, w'))
  <-> (exists r, github_api (length (sent w)) (pulls_request self repo_name) = inr r
                 /\ status_code r <> 200%Z).

(** ** A recorded session *)

Definition digits (s : string) : option nat :=
  Nat.of_uint <$> NilZero.uint_of_string s.

(** [fromisoformat] on the texts [YYYY-MM-DDTHH:MM:SS+00:00]. *)
Definition iso_seconds (s : string) : exn + parsed_datetime :=
  match digits (String.substring 0 4 s), digits (String.substring 5 2 s),
        digits (String.substring 8 2 s), digits (String.substring 11 2 s),
        digits (String.substring 14 2 s), digits (String.substring 17 2 s) with
  | Some y, Some mo, Some d, Some h, Some mi, Some sec =>
      if String.eqb (String.substring 19 6 s) "+00:00"
         && Nat.eqb (String.length s) 25
      then inr (mk_parsed (mk_datetime y mo d h mi sec 0) (Some 0%Z))
      else inl (Raised ValueError ("Invalid isoformat string: " +:+ s))
  | _, _, _, _, _, _ => inl (Raised ValueError ("Invalid isoformat string: " +:+ s))
  end.

Definition no_cache_file : string -> exn + gmap string (list PullRequestRecord) :=
  fun _ => inl (Raised JSONDecodeError "Expecting value: line 1 column 1 (char 0)").

Definition dump_stub : gmap string (list PullRequestRecord) -> string :=
  fun _ => "{}".

Definition demo_pulls : list pull :=
  [ mk_pull 12 "Add retry" "open" "2024-03-01T08:00:00Z" "2024-03-07T09:00:00Z" "alice";
    mk_pull 11 "Fix typo" "closed" "2024-03-02T08:00:00Z" "2024-03-06T12:00:00Z" "bob";
    mk_pull 10 "Old work" "closed" "2024-01-02T08:00:00Z" "2024-01-03T10:00:00Z" "alice" ].

(** The code-hosting service of the session: repository [billing] answers
    500, [docs] answers 200 with a page that is not JSON, every other
    repository answers [demo_pulls]. *)
Definition demo_github (_ : nat) (r : request) : exn + response (list pull) :=
  if String.eqb (url r) "https://api.github.com/repos/aziontech/billing/pulls"
  then inr (mk_response 500 "Internal Server Error"
              (inl (Raised JSONDecodeError "Expecting value: line 1 column 1 (char 0)")))
  else if String.eqb (url r) "https://api.github.com/repos/aziontech/docs/pulls"
  then inr (mk_response 200 "<html>Sign in</html>"
              (inl (Raised JSONDecodeError "Expecting value: line 1 column 1 (char 0)")))
  else inr (mk_response 200 "[...]" (inr demo_pulls)).

Definition demo_issue : Issue :=
  mk_issue "API-7" "Rate limits" "In Progress" "2024-03-07T09:30:00Z"
    (Some (mk_changelog (Some
       [ mk_history "2024-03-07T09:30:00Z"
           (Some [ mk_item "status" (Some (JString "Open")) (Some (JString "In Progress"));
                   mk_item "description" (Some JNull) (Some (JString "text")) ]);
         mk_history "2024-01-01T00:00:00Z"
           (Some [ mk_item "assignee" None (Some (JString "alice")) ]) ]))).

Definition demo_jira (_ : nat) (r : request) : exn + response SearchResult :=
  inr (mk_response 200 "{...}" (inr (mk_search (Some [demo_issue])))).

Definition demo_start : datetime := mk_datetime 2024 3 6 10 0 0 0.
Definition demo_end : datetime := mk_datetime 2024 3 7 10 0 0 0.

Definition demo_client : GitHubClient := mk_github "t0ken" "https://api.github.com".
Definition demo_jira_client : JiraClient :=
  mk_jira "https://example.atlassian.net" "bot" "s3cret".

Definition fresh_world : world := mk_world ∅ Missing None [] [].

Definition demo_team : Team :=
  mk_team "API"
    [ mk_member "alice@example.com" "alice"; mk_member "bob@example.com" "bob" ]
    [ mk_project "https://github.com/aziontech/api";
      mk_project "https://github.com/aziontech/billing";
      mk_project "https://github.com/aziontech/cli" ].

(** The same two members with one repository. *)
Definition small_team : Team :=
  mk_team "API"
    [ mk_member "alice@example.com" "alice"; mk_member "bob@example.com" "bob" ]
    [ mk_project "https://github.com/aziontech/api" ].

(** An issue tracker that refuses alice's credentials and cannot be
    reached for anybody else. *)
Definition jira_down (_ : nat) (r : request) : exn + response SearchResult :=
  if String.eqb (default EmptyString (snd <$> head (params r)))
       (jql_of "alice@example.com" demo_start demo_end)
  then inr (mk_response 401 "Unauthorized"
              (inl (Raised JSONDecodeError "Expecting value: line 1 column 1 (char 0)")))
  else inl (Raised RequestException "Connection refused").

(** ** Further vocabulary *)

(** The world with its output erased. *)
Definition quiet (w : world) : world :=
  mk_world (_cache w) (cache_file w) (open_w_error w) (sent w) [].

(** The bounds [datetime] enforces on the date fields: years 1 to 9999,
    months 1 to 12, days 1 to 31. *)
Definition valid_date (d : datetime) : Prop :=
  (1 <= year d < 100 * 100) /\ (1 <= month d <= 12) /\ (1 <= day d <= 31).

(** A computation leaves every entry of the cache as it is. *)
Definition keeps_entries {A} (m : M A) : Prop :=
  forall w k v, _cache w !! k = Some v -> _cache (m w).2 !! k = Some v.

(** The requests a computation sends all satisfy [P]. *)
Definition asks {A} (P : request -> Prop) (m : M A) : Prop :=
  forall w, exists extra,
    sent (m w).2 = (sent w ++ extra)%list /\ Forall P extra.

(** The requests sent between two worlds. *)
Definition sent_since (w w' : world) : list request :=
  drop (length (sent w)) (sent w').

(** The request carries credentials for basic authentication: only the
    issue-tracker request does. *)
Definition has_auth (r : request) : bool :=
  match auth r with Some _ => true | None => false end.

(** [bool(v)] for what [os.getenv] returned. *)
Definition present (v : option string) : bool :=
  match v with
  | Some (String _ _) => true
  | _ => false
  end.

(** The records stored for a repository and range, if any. *)
Definition cached_for (repo_name : string) (start_date end_date : datetime)
    (w : world) : list PullRequestRecord :=
  default [] (_cache w !! _get_cache_key repo_name start_date end_date).

(** The pre-loading loop of [main], lines 71-78. *)
Definition preload (github_client : GitHubClient) (start_date end_date : datetime)
    (verbose : bool) (team : Team) : M unit :=
  for_each (preload_repo github_client start_date end_date verbose)
    (projects team) tt.

(** An entry of [teams.py]: the slug and the rest of the dict. *)
Record TeamEntry := mk_entry {
  slug : string;
  team_of : Team
}.

(** [get_team_by_slug]; the first argument is the list [teams]. *)
Fixpoint get_team_by_slug (teams : list TeamEntry) (wanted : string)
  : option TeamEntry :=
  match teams with
  | [] => None
  | entry :: rest =>
      if String.eqb (slug entry) wanted then Some entry
      else get_team_by_slug rest wanted
  end.

(** The cache of the session once [api] is fetched. *)
Definition demo_cache : gmap string (list PullRequestRecord) :=
  {[ "api_20240306_20240307" :=
       [ mk_pr 12 "Add retry" "open" "2024-03-01T08:00:00Z" "2024-03-07T09:00:00Z"
           "api" "alice";
         mk_pr 11 "Fix typo" "closed" "2024-03-02T08:00:00Z" "2024-03-06T12:00:00Z"
           "api" "bob" ] ]}.

(** A loader that reads back what [dump_stub] writes for [demo_cache]. *)
Definition load_stub (s : string) : exn + gmap string (list PullRequestRecord) :=
  if String.eqb s "{}" then inr demo_cache
  else inl (Raised JSONDecodeError "Expecting value: line 1 column 1 (char 0)").

(** A request for the pulls of one of the team's repositories. *)
Definition team_pulls (gh : GitHubClient) (team : Team) (r : request) : Prop :=
  has_auth r = false
  /\ exists p, In p (projects team) /\ r = pulls_request gh (repo_name_of p).

(** The search a member's round sends to the issue tracker. *)
Definition member_search (jc : JiraClient) (start_date end_date : datetime)
    (member : Member) : request :=
  search_request jc (jql_of (email member) start_date end_date).

(** ** The order of the calendar *)

(** [a] is not later than [b]: an earlier year, or the same year and an
    earlier month, and so on down to the microsecond.  Written on the
    fields themselves, apart from the comparison the code runs. *)
Definition chron_le (a b : datetime) : Prop :=
  year a < year b \/ (year a = year b /\
  (month a < month b \/ (month a = month b /\
  (day a < day b \/ (day a = day b /\
  (hour a < hour b \/ (hour a = hour b /\
  (minute a < minute b \/ (minute a = minute b /\
  (second a < second b \/ (second a = second b /\
   microsecond a <= microsecond b))))))))))).





(** ** The order on timestamps *)

Lemma lex_compare_le (a b : list nat) : lex_compare a b <> Gt <-> lex_le a b.
Proof.
  revert b. induction a as [|x a IH]; intros [|y b]; simpl.
  - split; [constructor | discriminate].
  - split; [constructor | discriminate].
  - split; [congruence | inversion 1].
  - destruct (Nat.compare_spec x y) as [-> | Hlt | Hgt].
    + rewrite IH. split; [by constructor |].
      inversion 1; subst; [lia | done].
    + split; [by constructor | discriminate].
    + split; [congruence |].
      inversion 1; subst; lia.
Qed.

Lemma dt_leb_le (a b : datetime) : dt_leb a b = true <-> dt_le a b.
Proof.
  unfold dt_leb, dt_le, dt_compare. rewrite <- lex_compare_le.
  destruct (lex_compare _ _); split; congruence.
Qed.

(** The comparison the code runs decides the order of the calendar. *)
Lemma dt_leb_chron (a b : datetime) : dt_leb a b = true <-> chron_le a b.
Proof.
  unfold dt_leb, dt_compare, dt_fields, chron_le. cbn [lex_compare].
  repeat match goal with
         | |- context [Nat.compare ?x ?y] => destruct (Nat.compare_spec x y)
         end;
    split; intros Hgoal; try discriminate; try reflexivity; lia.
Qed.

Lemma in_range_chron (s e t : datetime) :
  in_range s e t = true <-> chron_le s t /\ chron_le t e.
Proof. unfold in_range. now rewrite andb_true_iff, !dt_leb_chron. Qed.

Lemma in_range_le (s e t : datetime) :
  in_range s e t = true <-> dt_le s t /\ dt_le t e.
Proof. unfold in_range. by rewrite andb_true_iff, !dt_leb_le. Qed.

Lemma lex_le_refl (a : list nat) : lex_le a a.
Proof. induction a; by constructor. Qed.

Lemma lex_le_trans (a b c : list nat) : lex_le a b -> lex_le b c -> lex_le a c.
Proof.
  intros Hab. revert c. induction Hab as [b | x y a b Hxy | x a b Hab IH];
    intros c Hbc.
  - constructor.
  - inversion Hbc; subst; apply lex_le_lt; lia.
  - inversion Hbc; subst; [by apply lex_le_lt | apply lex_le_eq; auto].
Qed.

Lemma dt_le_refl (a : datetime) : dt_le a a.
Proof. apply lex_le_refl. Qed.

Lemma dt_le_trans (a b c : datetime) : dt_le a b -> dt_le b c -> dt_le a c.
Proof. apply lex_le_trans. Qed.

(** ** Loops that append *)

Lemma for_each_pure_gather {X Y} (body : list Y -> X -> exn + list Y)
    (step : X -> exn + list Y) :
  (forall acc x, body acc x = match step x with
                              | inl e => inl e
                              | inr ys => inr (acc ++ ys)%list
                              end) ->
  forall xs acc,
    for_each_pure body xs acc = match gather step xs with
                                | inl e => inl e
                                | inr ys => inr (acc ++ ys)%list
                                end.
Proof.
  intros Hbody xs. induction xs as [|x xs IH]; intros acc; simpl.
  - by rewrite app_nil_r.
  - rewrite Hbody. destruct (step x) as [e|ys]; [done |].
    rewrite IH. destruct (gather step xs) as [e|zs]; [done |].
    by rewrite app_assoc.
Qed.

Lemma gather_all_ok {X Y} (step : X -> exn + list Y) (out : X -> list Y)
    (xs : list X) :
  Forall (fun x => step x = inr (out x)) xs ->
  gather step xs = inr (flat_map out xs).
Proof.
  induction 1 as [|x xs Hx _ IH]; simpl; [done |].
  by rewrite Hx, IH.
Qed.

Lemma flat_map_filter_map {X Y} (p : X -> bool) (g : X -> Y) (xs : list X) :
  flat_map (fun x => if p x then [g x] else []) xs = map g (List.filter p xs).
Proof.
  induction xs as [|x xs IH]; simpl; [done |].
  destruct (p x); simpl; by rewrite IH.
Qed.

(** The loop of lines 80-91 keeps, in order, the pulls that pass the
    range test. *)
Lemma keep_pull_loop (repo_name : string) (s e : datetime) (prs_data : list pull) :
  all_parse (map pull_updated_at prs_data) ->
  for_each_pure (keep_pull repo_name s e) prs_data []
  = inr (map (normalize repo_name)
           (List.filter (fun pr => retained s e (pull_updated_at pr)) prs_data)).
Proof.
  intros Hparse.
  rewrite (for_each_pure_gather _
             (fun pr => match timestamp_of (pull_updated_at pr) with
                        | inl e => inl e
                        | inr t => inr (if in_range s e t
                                        then [normalize repo_name pr] else [])
                        end)).
  2:{ intros acc pr. unfold keep_pull.
      destruct (timestamp_of _) as [?|t]; [done |].
      destruct (in_range s e t); [done | by rewrite app_nil_r]. }
  rewrite (gather_all_ok _
             (fun pr => if retained s e (pull_updated_at pr)
                        then [normalize repo_name pr] else [])).
  - by rewrite flat_map_filter_map.
  - unfold all_parse in Hparse. rewrite Forall_map in Hparse.
    eapply Forall_impl; [exact Hparse |].
    intros pr [t Ht]; simpl in *. unfold retained. by rewrite Ht.
Qed.

(** ** Running the code-hosting fetch *)

Lemma when_print (verbose : bool) (line : string) (w : world) :
  when verbose (print line) w = (inr tt, say verbose line w).
Proof. by destruct verbose. Qed.

Lemma _save_cache_run (w : world) : _save_cache w = (inr tt, saved w).
Proof.
  unfold _save_cache, saved, try_except, bind, get_world. simpl.
  by destruct (open_w_error w) as [[ex|written ex]|].
Qed.

Lemma say_sent (verbose : bool) (line : string) (w : world) :
  sent (say verbose line w) = sent w.
Proof. by destruct verbose. Qed.

Lemma say_cache (verbose : bool) (line : string) (w : world) :
  _cache (say verbose line w) = _cache w.
Proof. by destruct verbose. Qed.

Lemma saved_sent (w : world) : sent (saved w) = sent w.
Proof. unfold saved. by destruct (open_w_error w) as [[ex|written ex]|]. Qed.

Lemma saved_cache (w : world) : _cache (saved w) = _cache w.
Proof. unfold saved. by destruct (open_w_error w) as [[ex|written ex]|]. Qed.

(** A hit returns the cached value and sends nothing. *)
Lemma get_all_hit (self : GitHubClient) (repo_name : string) (s e : datetime)
    (verbose : bool) (w : world) (cached : list PullRequestRecord) :
  _cache w !! _get_cache_key repo_name s e = Some cached ->
  get_all_pull_requests self repo_name s e verbose w
  = (inr cached, say verbose (cache_note repo_name) w).
Proof.
  intros Hhit. unfold get_all_pull_requests, bind, get_world. simpl.
  rewrite Hhit. fold (@bind unit). unfold bind. by rewrite when_print.
Qed.

(** A miss sends one request and goes by its answer. *)
Lemma get_all_miss (self : GitHubClient) (repo_name : string) (s e : datetime)
    (verbose : bool) (w : world) :
  _cache w !! _get_cache_key repo_name s e = None ->
  get_all_pull_requests self repo_name s e verbose w
  = let w1 := requested self repo_name verbose w in
    match github_api (length (sent w)) (pulls_request self repo_name) with
    | inl ex => (inl ex, w1)
    | inr r =>
        if (status_code r =? 200)%Z
        then match json r with
             | inl ex => (inl ex, w1)
             | inr prs_data =>
                 match for_each_pure (keep_pull repo_name s e) prs_data [] with
                 | inl ex => (inl ex, w1)
                 | inr all_prs =>
                     (inr all_prs,
                      saved (set_cache
                               (<[_get_cache_key repo_name s e := all_prs]> (_cache w))
                               w1))
                 end
             end
        else (inl (api_error "GitHub" r), w1)
    end.
Proof.
  intros Hmiss. unfold get_all_pull_requests, bind, get_world. simpl.
  rewrite Hmiss, when_print. unfold requests_get, requested. simpl.
  rewrite say_sent.
  destruct (github_api _ _) as [ex|r]; [done |].
  destruct (status_code r =? 200)%Z; simpl; [| done].
  unfold lift. destruct (json r) as [ex|prs_data]; [done |].
  destruct (for_each_pure _ _ _) as [ex|all_prs]; [done |].
  unfold modify. simpl. rewrite _save_cache_run. simpl.
  by rewrite say_cache.
Qed.

(** ** Running the issue-tracker fetch *)

Lemma get_user_activities_run (self : JiraClient) (email : string)
    (s e : datetime) (verbose : bool) (w : world) :
  get_user_activities self email s e verbose w
  = let w1 := searched self email s e verbose w in
    match jira_api (length (sent w)) (search_request self (jql_of email s e)) with
    | inl ex => (inl ex, w1)
    | inr r =>
        if (status_code r =? 200)%Z
        then match json r with
             | inl ex => (inl ex, w1)
             | inr data =>
                 (for_each_pure (add_issue s e) (default [] (issues data)) [], w1)
             end
        else (inl (api_error "Jira" r), w1)
    end.
Proof.
  unfold get_user_activities, bind, searched. simpl. rewrite when_print.
  unfold requests_get. simpl. rewrite say_sent.
  case (jira_api _ _) as [ex|r]; [reflexivity |].
  case (status_code r =? 200)%Z; simpl; [| reflexivity].
  unfold lift. now case (json r).
Qed.

Lemma add_change_loop (its : list Item) (acc : list string) :
  for_each_pure add_change its acc
  = inr (acc ++ map change_desc
                  (List.filter (fun item => negb (is_ignored item)) its))%list.
Proof.
  revert acc. induction its as [|item its IH]; intros acc; simpl.
  - now rewrite app_nil_r.
  - unfold add_change at 1, is_ignored at 1.
    case (str_in (field item) ignored_fields); simpl.
    + apply IH.
    + rewrite IH, <- app_assoc. reflexivity.
Qed.

Lemma flat_map_filter {X Y} (p : X -> bool) (f : X -> list Y) (xs : list X) :
  flat_map (fun x => if p x then f x else []) xs = flat_map f (List.filter p xs).
Proof.
  induction xs as [|x xs IH]; simpl; [reflexivity |].
  case (p x); simpl; now rewrite IH.
Qed.

Lemma flat_map_map_filter {X Y Z} (f : X -> list Y) (q : Y -> bool) (g : Y -> Z)
    (xs : list X) :
  flat_map (fun x => map g (List.filter q (f x))) xs
  = map g (List.filter q (flat_map f xs)).
Proof.
  induction xs as [|x xs IH]; simpl; [reflexivity |].
  now rewrite IH, List.filter_app, map_app.
Qed.

(** Lines 54-65 render the emitted items of the issue, in order. *)
Lemma recent_changes_of_ok (s e : datetime) (issue : Issue) :
  all_parse (map created (histories_of issue)) ->
  recent_changes_of s e issue = inr (map change_desc (emitted_items s e issue)).
Proof.
  unfold recent_changes_of, emitted_items, histories_of.
  destruct (issue_changelog issue) as [[[hs|]]|]; try reflexivity.
  intros Hparse.
  rewrite (for_each_pure_gather _
             (fun h => match timestamp_of (created h) with
                       | inl ex => inl ex
                       | inr t =>
                           inr (if in_range s e t
                                then map change_desc
                                       (List.filter (fun i => negb (is_ignored i))
                                          (items_of h))
                                else [])
                       end)).
  - rewrite (gather_all_ok _
               (fun h => if retained s e (created h)
                         then map change_desc
                                (List.filter (fun i => negb (is_ignored i))
                                   (items_of h))
                         else [])).
    + now rewrite flat_map_filter, flat_map_map_filter.
    + unfold all_parse in Hparse. rewrite Forall_map in Hparse.
      eapply Forall_impl; [exact Hparse |].
      intros h [t Ht]; simpl in *. unfold retained. now rewrite Ht.
  - intros acc h. unfold scan_history.
    destruct (timestamp_of (created h)) as [ex|t]; [reflexivity |].
    destruct (in_range s e t).
    + apply add_change_loop.
    + now rewrite app_nil_r.
Qed.

(** Lines 53-73 emit one record per issue, in order. *)
Lemma add_issue_loop (s e : datetime) (iss : list Issue) :
  all_parse (map created (flat_map histories_of iss)) ->
  for_each_pure (add_issue s e) iss [] = inr (map (activity_of s e) iss).
Proof.
  intros Hparse.
  rewrite (for_each_pure_gather _
             (fun issue =>
                match recent_changes_of s e issue with
                | inl ex => inl ex
                | inr rc =>
                    inr [mk_activity (issue_key issue) (fields_summary issue)
                           (fields_status_name issue) (fields_updated issue) rc]
                end)).
  - rewrite (gather_all_ok _ (fun issue => [activity_of s e issue])).
    + simpl. clear. induction iss as [|i iss IH]; simpl; congruence.
    + rewrite List.Forall_forall. intros issue Hin.
      rewrite recent_changes_of_ok; [reflexivity |].
      unfold all_parse in *. rewrite List.Forall_forall in *.
      intros ts Hts. apply Hparse.
      rewrite in_map_iff in *. destruct Hts as (h & <- & Hh).
      exists h. split; [reflexivity |]. apply in_flat_map. eauto.
  - intros acc issue. unfold add_issue.
    now destruct (recent_changes_of s e issue).
Qed.

(** ** Cache key *)

(** C4. Two ranges whose start timestamps fall on the same calendar day
    and whose end timestamps fall on the same calendar day get the same
    cache key for a repository, whatever their times of day. *)
Theorem cache_key_same_day (repo_name : string) (s1 e1 s2 e2 : datetime) :
  date s1 = date s2 -> date e1 = date e2 ->
  _get_cache_key repo_name s1 e1 = _get_cache_key repo_name s2 e2.
Proof.
  unfold date. intros Hs He.
  injection Hs as Hy Hm Hd. injection He as Hy' Hm' Hd'.
  unfold _get_cache_key, strftime_Ymd. congruence.
Qed.

(** ** Range filter *)

(** C1. On the path that reads the remote answer, the code-hosting fetch
    returns the normalised pulls whose [updated_at] passes the range
    test, in order, and the issue-tracker fetch renders the items of the
    history entries whose [created] passes it.  A timestamp text passes
    exactly when [s <= t <= e] in the order of the calendar, both ends
    included, where [t] is the wall-clock reading of the text as
    [fromisoformat] parses it (a final [Z] read as [+00:00]), its UTC
    offset dropped. *)
Theorem retained_iff_in_range
    (gh : GitHubClient) (jc : JiraClient) (repo_name email : string)
    (s e : datetime) (verbose : bool) (w wj : world)
    (r : response (list pull)) (prs_data : list pull)
    (rj : response SearchResult) (data : SearchResult) :
  _cache w !! _get_cache_key repo_name s e = None ->
  github_api (length (sent w)) (pulls_request gh repo_name) = inr r ->
  status_code r = 200%Z ->
  json r = inr prs_data ->
  all_parse (map pull_updated_at prs_data) ->
  jira_api (length (sent wj)) (search_request jc (jql_of email s e)) = inr rj ->
  status_code rj = 200%Z ->
  json rj = inr data ->
  all_parse (map created (flat_map histories_of (default [] (issues data)))) ->
  (get_all_pull_requests gh repo_name s e verbose w).1
  = inr (map (normalize repo_name)
           (List.filter (fun pr => retained s e (pull_updated_at pr)) prs_data))
  /\ (get_user_activities jc email s e verbose wj).1
     = inr (map (activity_of s e) (default [] (issues data)))
  /\ (forall h, retained s e (created h) = true
                -> forall issue, In h (histories_of issue)
                -> forall item, In item (items_of h) -> is_ignored item = false
                -> In item (emitted_items s e issue))
  /\ (forall issue item, In item (emitted_items s e issue)
        -> exists h, In h (histories_of issue) /\ In item (items_of h)
                     /\ retained s e (created h) = true)
  /\ (forall ts d, fromisoformat (PyStr.replace "Z" "+00:00" ts) = inr d ->
        (retained s e ts = true
         <-> chron_le s (naive d) /\ chron_le (naive d) e))
  /\ (forall ts ex, fromisoformat (PyStr.replace "Z" "+00:00" ts) = inl ex ->
        retained s e ts = false).
Proof.
  intros Hmiss Hgh H200 Hjson Hparse Hjira Hj200 Hjjson Hjparse.
  split; [| split; [| split; [| split; [| split]]]].
  - rewrite get_all_miss by assumption. simpl.
    rewrite Hgh, H200, Hjson. simpl.
    now rewrite keep_pull_loop.
  - rewrite get_user_activities_run. simpl.
    rewrite Hjira, Hj200, Hjjson. simpl.
    now apply add_issue_loop.
  - intros h Hh issue Hin item Hitem Hign. unfold emitted_items.
    apply filter_In. split; [| now rewrite Hign].
    apply in_flat_map. exists h. split; [| assumption].
    apply filter_In. auto.
  - intros issue item Hin. unfold emitted_items in Hin.
    apply filter_In in Hin as [Hin _].
    apply in_flat_map in Hin as (h & Hh & Hitem).
    apply filter_In in Hh as [Hh Hret]. eauto.
  - intros ts d Hd. unfold retained, timestamp_of, parse_timestamp.
    rewrite Hd. unfold replace_tzinfo_None. apply in_range_chron.
  - intros ts ex Hd. unfold retained, timestamp_of, parse_timestamp.
    now rewrite Hd.
Qed.

(** ** Cache *)

Lemma get_all_sent (self : GitHubClient) (repo_name : string) (s e : datetime)
    (verbose : bool) (w : world) :
  sent (get_all_pull_requests self repo_name s e verbose w).2
  = match _cache w !! _get_cache_key repo_name s e with
    | Some _ => sent w
    | None => (sent w ++ [pulls_request self repo_name])%list
    end.
Proof.
  destruct (_cache w !! _ ) as [cached|] eqn:Hc.
  - erewrite get_all_hit by eassumption. apply say_sent.
  - rewrite get_all_miss by assumption. simpl.
    assert (Hreq : sent (requested self repo_name verbose w)
                   = (sent w ++ [pulls_request self repo_name])%list).
    { unfold requested. simpl. now rewrite say_sent. }
    destruct (github_api _ _) as [ex|r]; [exact Hreq |].
    destruct (status_code r =? 200)%Z; [| exact Hreq].
    destruct (json r) as [ex|prs_data]; [exact Hreq |].
    destruct (for_each_pure _ _ _); [exact Hreq |].
    simpl. now rewrite saved_sent.
Qed.

(** A fetch that returned leaves its result under the key. *)
Lemma get_all_cached (self : GitHubClient) (repo_name : string) (s e : datetime)
    (verbose : bool) (w w1 : world) (rs : list PullRequestRecord) :
  get_all_pull_requests self repo_name s e verbose w = (inr rs, w1) ->
  _cache w1 !! _get_cache_key repo_name s e = Some rs.
Proof.
  destruct (_cache w !! _get_cache_key repo_name s e) as [cached|] eqn:Hc.
  - erewrite get_all_hit by eassumption. intros [= <- <-].
    now rewrite say_cache.
  - rewrite get_all_miss by assumption. simpl.
    destruct (github_api _ _) as [ex|r]; [discriminate |].
    destruct (status_code r =? 200)%Z; [| discriminate].
    destruct (json r) as [ex|prs_data]; [discriminate |].
    destruct (for_each_pure _ _ _); [discriminate |].
    intros [= <- <-]. rewrite saved_cache. simpl. apply lookup_insert_eq.
Qed.

(** C2. When a first fetch for a repository and range finds nothing
    under the key and returns records, a second fetch for the same
    repository and range returns the same records from the cache: the
    two calls together send exactly one request. *)
Theorem second_fetch_from_cache (gh : GitHubClient) (repo_name : string)
    (s e : datetime) (verbose : bool) (w w1 : world)
    (rs : list PullRequestRecord) :
  _cache w !! _get_cache_key repo_name s e = None ->
  get_all_pull_requests gh repo_name s e verbose w = (inr rs, w1) ->
  exists w2,
    get_all_pull_requests gh repo_name s e verbose w1 = (inr rs, w2)
    /\ sent w1 = (sent w ++ [pulls_request gh repo_name])%list
    /\ sent w2 = sent w1
    /\ _cache w2 = _cache w1
    /\ cache_file w2 = cache_file w1.
Proof.
  intros Hmiss Hfirst.
  pose proof (get_all_cached _ _ _ _ _ _ _ _ Hfirst) as Hhit.
  exists (say verbose (cache_note repo_name) w1).
  split; [now apply get_all_hit |].
  split.
  - pose proof (get_all_sent gh repo_name s e verbose w) as Hs.
    now rewrite Hfirst, Hmiss in Hs.
  - now destruct verbose.
Qed.

(** ** Author filter *)

Lemma sublist_list_filter {A} (p : A -> bool) (l : list A) :
  sublist (List.filter p l) l.
Proof.
  induction l as [|a l IH]; simpl; [constructor |].
  destruct (p a); [now apply sublist_skip | now apply sublist_cons].
Qed.

(** C5. [get_user_pull_requests] ends in the world in which
    [get_all_pull_requests] ends, having sent at most the one request of
    that call; when that call returns records it returns those of them
    whose author is the queried handle, in order, and when that call
    raises it raises the same exception. *)
Theorem user_pulls_filter_all (gh : GitHubClient) (repo_name user : string)
    (s e : datetime) (verbose : bool) (w : world) :
  let fetch_all := get_all_pull_requests gh repo_name s e verbose w in
  let fetch_user := get_user_pull_requests gh repo_name user s e verbose w in
  fetch_user.2 = fetch_all.2
  /\ (sent fetch_user.2 = sent w
      \/ sent fetch_user.2 = (sent w ++ [pulls_request gh repo_name])%list)
  /\ match fetch_all.1 with
     | inl ex => fetch_user.1 = inl ex
     | inr all_prs =>
         exists user_prs,
           fetch_user.1 = inr user_prs
           /\ user_prs = List.filter (fun pr => String.eqb (author pr) user) all_prs
           /\ sublist user_prs all_prs
           /\ (forall pr, In pr user_prs -> In pr all_prs /\ author pr = user)
     end.
Proof.
  intros fetch_all fetch_user.
  assert (Hrun : fetch_user
                 = (match fetch_all.1 with
                    | inl ex => inl ex
                    | inr all_prs =>
                        inr (List.filter (fun pr => String.eqb (author pr) user)
                               all_prs)
                    end, fetch_all.2)).
  { subst fetch_user fetch_all. unfold get_user_pull_requests, bind.
    now destruct (get_all_pull_requests _ _ _ _ _ _) as [[ex|all_prs] w']. }
  rewrite Hrun. simpl. split; [reflexivity |]. split.
  - subst fetch_all. rewrite get_all_sent.
    destruct (_cache w !! _); auto.
  - destruct (fetch_all.1) as [ex|all_prs]; [reflexivity |].
    eexists. split; [reflexivity |]. split; [reflexivity |]. split.
    + apply sublist_list_filter.
    + intros pr Hin. apply filter_In in Hin as [Hin Hauthor].
      split; [assumption |]. now apply String.eqb_eq.
Qed.

(** ** Change history *)

Lemma scan_history_loop_parse (s e : datetime) (hs : list History) :
  forall acc rc,
    for_each_pure (scan_history s e) hs acc = inr rc ->
    all_parse (map created hs).
Proof.
  induction hs as [|h hs IH]; simpl; intros acc rc Hrun; [constructor |].
  destruct (scan_history s e acc h) as [ex|acc'] eqn:Hstep; [discriminate |].
  constructor; [| eapply IH; eassumption].
  unfold scan_history in Hstep.
  destruct (timestamp_of (created h)) as [ex|t]; [discriminate | eauto].
Qed.

Lemma recent_changes_parse (s e : datetime) (issue : Issue) (rc : list string) :
  recent_changes_of s e issue = inr rc ->
  all_parse (map created (histories_of issue)).
Proof.
  unfold recent_changes_of, histories_of.
  destruct (issue_changelog issue) as [[[hs|]]|]; try (intros _; constructor).
  apply scan_history_loop_parse.
Qed.

Lemma add_issue_loop_parse (s e : datetime) (iss : list Issue) :
  forall acc rs,
    for_each_pure (add_issue s e) iss acc = inr rs ->
    all_parse (map created (flat_map histories_of iss)).
Proof.
  induction iss as [|issue iss IH]; simpl; intros acc rs Hrun; [constructor |].
  destruct (add_issue s e acc issue) as [ex|acc'] eqn:Hstep; [discriminate |].
  unfold all_parse. rewrite map_app. apply Forall_app. split.
  - unfold add_issue in Hstep.
    destruct (recent_changes_of s e issue) as [ex|rc] eqn:Hrc; [discriminate |].
    eapply recent_changes_parse; eassumption.
  - eapply IH; eassumption.
Qed.

(** What a fetch that returned has gone through. *)
Lemma get_user_activities_inv (jc : JiraClient) (email : string) (s e : datetime)
    (verbose : bool) (w w' : world) (rs : list IssueActivityRecord) :
  get_user_activities jc email s e verbose w = (inr rs, w') ->
  exists r data,
    jira_api (length (sent w)) (search_request jc (jql_of email s e)) = inr r
    /\ status_code r = 200%Z
    /\ json r = inr data
    /\ rs = map (activity_of s e) (default [] (issues data)).
Proof.
  rewrite get_user_activities_run. simpl.
  destruct (jira_api _ _) as [ex|r]; [discriminate |].
  destruct (status_code r =? 200)%Z eqn:Hst; [| discriminate].
  destruct (json r) as [ex|data] eqn:Hjson; [discriminate |].
  intros [= Hloop _]. exists r, data.
  split; [reflexivity |]. split; [now apply Z.eqb_eq |]. split; [assumption |].
  pose proof (add_issue_loop_parse _ _ _ _ _ Hloop) as Hparse.
  rewrite add_issue_loop in Hloop by assumption. congruence.
Qed.

Lemma Forall2_map_self {A B} (R : A -> B -> Prop) (f : A -> B) (l : list A) :
  (forall x, In x l -> R x (f x)) -> Forall2 R l (map f l).
Proof.
  induction l as [|a l IH]; simpl; intros Hall; [constructor |].
  constructor; [apply Hall; now left | apply IH; auto].
Qed.

(** C6. The records the issue-tracker fetch returns are those of the
    issues of the answer, and the [changes] of each render items none of
    which has the field [description] or [Bug Template]: such an item is
    left out even when its history entry is in range. *)
Theorem ignored_fields_not_emitted (jc : JiraClient) (email : string)
    (s e : datetime) (verbose : bool) (w w' : world)
    (rs : list IssueActivityRecord) :
  get_user_activities jc email s e verbose w = (inr rs, w') ->
  exists r data,
    jira_api (length (sent w)) (search_request jc (jql_of email s e)) = inr r
    /\ json r = inr data
    /\ Forall2 (fun issue record =>
                  changes record = map change_desc (emitted_items s e issue)
                  /\ forall item,
                       field item = "description" \/ field item = "Bug Template" ->
                       ~ In item (emitted_items s e issue))
         (default [] (issues data)) rs.
Proof.
  intros Hrun.
  destruct (get_user_activities_inv _ _ _ _ _ _ _ _ Hrun)
    as (r & data & Hapi & _ & Hjson & ->).
  exists r, data. split; [assumption |]. split; [assumption |].
  apply Forall2_map_self. intros issue _.
  split; [reflexivity |].
  intros item Hfield Hin. unfold emitted_items in Hin.
  apply filter_In in Hin as [_ Hkeep].
  unfold is_ignored, ignored_fields, str_in in Hkeep.
  destruct Hfield as [Hf | Hf]; rewrite Hf in Hkeep; vm_compute in Hkeep;
    discriminate Hkeep.
Qed.

Lemma filter_none {A} (p : A -> bool) (l : list A) :
  (forall x, In x l -> p x = false) -> List.filter p l = [].
Proof.
  induction l as [|a l IH]; simpl; intros Hall; [reflexivity |].
  rewrite (Hall a) by auto. apply IH. auto.
Qed.

(** An issue whose history entries are all out of range or hold only
    ignored fields emits nothing. *)
Lemma emitted_items_none (s e : datetime) (issue : Issue) :
  (forall h, In h (histories_of issue) ->
             retained s e (created h) = false
             \/ forall item, In item (items_of h) -> is_ignored item = true) ->
  emitted_items s e issue = [].
Proof.
  intros Hall. unfold emitted_items. apply filter_none.
  intros item Hin.
  apply in_flat_map in Hin as (h & Hh & Hitem).
  apply filter_In in Hh as [Hh Hret].
  destruct (Hall h Hh) as [Hout | Hign]; [congruence |].
  now rewrite Hign.
Qed.

(** C10. When the remote call answers 200 with issues whose history
    timestamps parse, the fetch returns one record per issue, in order,
    carrying the key, summary, status and update text of the issue; an
    issue whose history entries are all out of range or hold only
    ignored fields gets a record with no changes. *)
Theorem one_record_per_issue (jc : JiraClient) (email : string)
    (s e : datetime) (verbose : bool) (w : world)
    (r : response SearchResult) (data : SearchResult) :
  jira_api (length (sent w)) (search_request jc (jql_of email s e)) = inr r ->
  status_code r = 200%Z ->
  json r = inr data ->
  all_parse (map created (flat_map histories_of (default [] (issues data)))) ->
  exists rs,
    (get_user_activities jc email s e verbose w).1 = inr rs
    /\ length rs = length (default [] (issues data))
    /\ Forall2 (fun issue record =>
                  key record = issue_key issue
                  /\ summary record = fields_summary issue
                  /\ status record = fields_status_name issue
                  /\ updated record = fields_updated issue
                  /\ ((forall h, In h (histories_of issue) ->
                         retained s e (created h) = false
                         \/ forall item, In item (items_of h) ->
                                         is_ignored item = true) ->
                      changes record = []))
         (default [] (issues data)) rs.
Proof.
  intros Hapi H200 Hjson Hparse.
  exists (map (activity_of s e) (default [] (issues data))).
  split; [| split].
  - rewrite get_user_activities_run. simpl.
    rewrite Hapi, H200, Hjson. simpl.
    now apply add_issue_loop.
  - apply length_map.
  - apply Forall2_map_self. intros issue _.
    repeat (split; [reflexivity |]).
    intros Hnone. simpl. now rewrite emitted_items_none.
Qed.

(** C9. What line 64 builds: the field, a colon and a space, the
    from-value or [None], the separator as the source has it, and the
    to-value or [None].  The separator is not the arrow the
    specification words, so the text differs from the specified one on
    every item. *)
Theorem change_desc_text (item : Item) :
  change_desc item
  = field item +:+ ": " +:+ get_or_None (fromString item) +:+ " â†’ "
      +:+ get_or_None (toString item)
  /\ change_desc item <> change_desc_spec item
  /\ change_desc (mk_item "status" (Some (JString "Open")) (Some (JString "Done")))
     = "status: Open â†’ Done"
  /\ change_desc_spec (mk_item "status" (Some (JString "Open")) (Some (JString "Done")))
     = "status: Open → Done".
Proof.
  split; [reflexivity |]. split; [| split; reflexivity].
  unfold change_desc, change_desc_spec, separator. intros Heq.
  do 3 apply String.app_inj in Heq.
  discriminate Heq.
Qed.

(** ** What a computation prints, and whether it raises *)

Lemma emits_ret {A} (P : string -> Prop) (a : A) : emits P (ret a).
Proof. intros w. exists []. simpl. now rewrite app_nil_r. Qed.

Lemma emits_raise {A} (P : string -> Prop) (ex : exn) : emits P (@raise A ex).
Proof. intros w. exists []. simpl. now rewrite app_nil_r. Qed.

Lemma emits_lift {A} (P : string -> Prop) (r : exn + A) : emits P (lift r).
Proof. intros w. exists []. simpl. now rewrite app_nil_r. Qed.

Lemma emits_get_world (P : string -> Prop) : emits P get_world.
Proof. intros w. exists []. simpl. now rewrite app_nil_r. Qed.

Lemma emits_modify (P : string -> Prop) (f : world -> world) :
  (forall w, stdout (f w) = stdout w) -> emits P (modify f).
Proof. intros Hf w. exists []. simpl. now rewrite Hf, app_nil_r. Qed.

Lemma emits_print (P : string -> Prop) (line : string) :
  P line -> emits P (print line).
Proof. intros Hline w. exists [line]. simpl. auto. Qed.

Lemma emits_when (P : string -> Prop) (b : bool) (m : M unit) :
  emits P m -> emits P (when b m).
Proof. destruct b; [trivial | intros _; apply emits_ret]. Qed.

Lemma emits_bind {A B} (P : string -> Prop) (m : M A) (k : A -> M B) :
  emits P m -> (forall a, emits P (k a)) -> emits P (bind m k).
Proof.
  intros Hm Hk w. unfold bind.
  destruct (Hm w) as (x1 & Hx1 & HP1).
  destruct (m w) as [[ex|a] w1]; simpl in *; [eauto |].
  destruct (Hk a w1) as (x2 & Hx2 & HP2).
  exists (x1 ++ x2)%list. rewrite Hx2, Hx1, app_assoc.
  split; [reflexivity | now apply Forall_app].
Qed.

Lemma emits_try {A} (P : string -> Prop) (m : M A) (h : exn -> M A) :
  emits P m -> (forall ex, emits P (h ex)) -> emits P (try_except m h).
Proof.
  intros Hm Hh w. unfold try_except.
  destruct (Hm w) as (x1 & Hx1 & HP1).
  destruct (m w) as [[ex|a] w1]; simpl in *; [| eauto].
  destruct (Hh ex w1) as (x2 & Hx2 & HP2).
  exists (x1 ++ x2)%list. rewrite Hx2, Hx1, app_assoc.
  split; [reflexivity | now apply Forall_app].
Qed.

Lemma emits_for_each {X Acc} (P : string -> Prop) (body : Acc -> X -> M Acc)
    (xs : list X) :
  (forall acc x, emits P (body acc x)) ->
  forall acc, emits P (for_each body xs acc).
Proof.
  intros Hbody. induction xs as [|x xs IH]; intros acc; simpl.
  - apply emits_ret.
  - apply emits_bind; [apply Hbody | apply IH].
Qed.

Lemma emits_requests_get {R} (P : string -> Prop)
    (api : nat -> request -> exn + response R) (rq : request) :
  emits P (requests_get api rq).
Proof. intros w. exists []. simpl. now rewrite app_nil_r. Qed.

Lemma emits_weaken {A} (P Q : string -> Prop) (m : M A) :
  (forall line, P line -> Q line) -> emits P m -> emits Q m.
Proof.
  intros HPQ Hm w. destruct (Hm w) as (x & Hx & HP).
  exists x. split; [assumption |]. eapply Forall_impl; eauto.
Qed.

Lemma emits_debug_print (P : string -> Prop) (message : string) (verbose : bool) :
  (forall text, P (debug_note text)) -> emits P (debug_print message verbose).
Proof. intros Hnote. apply emits_when, emits_print, Hnote. Qed.

Lemma never_raises_ret {A} (a : A) : never_raises (ret a).
Proof. intros w. now exists a, w. Qed.

Lemma never_raises_print (line : string) : never_raises (print line).
Proof. intros w. now exists tt, (write_line line w). Qed.

Lemma never_raises_debug_print (message : string) (verbose : bool) :
  never_raises (debug_print message verbose).
Proof.
  destruct verbose; [apply never_raises_print | apply never_raises_ret].
Qed.

Lemma never_raises_bind {A B} (m : M A) (k : A -> M B) :
  never_raises m -> (forall a, never_raises (k a)) -> never_raises (bind m k).
Proof.
  intros Hm Hk w. unfold bind.
  destruct (Hm w) as (a & w1 & ->). apply Hk.
Qed.

(** A [try] whose handler does not raise does not raise. *)
Lemma never_raises_try {A} (m : M A) (h : exn -> M A) :
  (forall ex, never_raises (h ex)) -> never_raises (try_except m h).
Proof.
  intros Hh w. unfold try_except.
  destruct (m w) as [[ex|a] w1]; [apply Hh | eauto].
Qed.

Lemma never_raises_for_each {X Acc} (body : Acc -> X -> M Acc) (xs : list X) :
  (forall acc x, never_raises (body acc x)) ->
  forall acc, never_raises (for_each body xs acc).
Proof.
  intros Hbody. induction xs as [|x xs IH]; intros acc; simpl.
  - apply never_raises_ret.
  - apply never_raises_bind; [apply Hbody | apply IH].
Qed.

(** ** The lines of the two clients *)

Lemma plain_debug_note (text : string) : plain (debug_note text).
Proof. split; reflexivity. Qed.

Lemma plain_api_note (what : string) : plain (api_note what).
Proof. split; reflexivity. Qed.

Lemma plain_cache_note (repo_name : string) : plain (cache_note repo_name).
Proof. split; reflexivity. Qed.

Lemma plain_save_warning (ex : exn) : plain (save_warning ex).
Proof. split; reflexivity. Qed.

Ltac emits_step :=
  first
    [ apply emits_ret | apply emits_raise | apply emits_lift
    | apply emits_get_world | apply emits_requests_get
    | apply emits_debug_print | apply emits_when | apply emits_print
    | apply emits_bind | apply emits_try | apply emits_for_each
    | apply emits_modify; reflexivity
    | apply plain_debug_note | apply plain_api_note | apply plain_cache_note
    | apply plain_save_warning
    | match goal with |- forall _, _ => intro end ].

Lemma _save_cache_emits : emits plain _save_cache.
Proof.
  unfold _save_cache. repeat emits_step.
  match goal with |- context [open_w_error ?w] =>
    destruct (open_w_error w) as [[ex|written ex]|] end;
    repeat emits_step.
Qed.

Lemma get_all_emits (self : GitHubClient) (repo_name : string) (s e : datetime)
    (verbose : bool) :
  emits plain (get_all_pull_requests self repo_name s e verbose).
Proof.
  unfold get_all_pull_requests. repeat emits_step.
  match goal with |- context [?c !! ?k] => destruct (c !! k) end;
    repeat emits_step.
  match goal with |- context [negb ?b] => destruct (negb b) end;
    repeat first [apply _save_cache_emits | emits_step].
Qed.

Lemma get_user_emits (self : GitHubClient) (repo_name user : string)
    (s e : datetime) (verbose : bool) :
  emits plain (get_user_pull_requests self repo_name user s e verbose).
Proof.
  unfold get_user_pull_requests. apply emits_bind; [apply get_all_emits |].
  intros all_prs. apply emits_ret.
Qed.

Lemma get_user_activities_emits (self : JiraClient) (email : string)
    (s e : datetime) (verbose : bool) :
  emits plain (get_user_activities self email s e verbose).
Proof.
  unfold get_user_activities. repeat emits_step.
  match goal with |- context [negb ?b] => destruct (negb b) end;
    repeat emits_step.
Qed.

(** ** Failure isolation *)

Lemma prefix_app (s t : string) : String.prefix s (s +:+ t) = true.
Proof.
  induction s as [|a s IH]; [now destruct t |].
  change (String.prefix (String a s) (String a (s +:+ t)) = true).
  simpl. now destruct (ascii_dec a a).
Qed.


Lemma member_header_is_header (member : Member) :
  is_member_header (member_header member) = true.
Proof.
  exact (prefix_app (newline +:+ "👤 ") (email member)).
Qed.

Lemma filter_plain_errors (lines : list string) :
  Forall plain lines -> List.filter is_repo_error lines = [].
Proof.
  intros Hplain. apply filter_none. rewrite List.Forall_forall in Hplain.
  intros line Hin. now destruct (Hplain line Hin).
Qed.

Lemma filter_no_header (lines : list string) :
  Forall no_header lines -> List.filter is_member_header lines = [].
Proof.
  intros Hno. apply filter_none. rewrite List.Forall_forall in Hno. exact Hno.
Qed.

Lemma say_stdout (verbose : bool) (line : string) (w : world) :
  stdout (say verbose line w) = (stdout w ++ if verbose then [line] else [])%list.
Proof. destruct verbose; simpl; [reflexivity | now rewrite app_nil_r]. Qed.

Lemma printed_since_app (w w' : world) (extra : list string) :
  stdout w' = (stdout w ++ extra)%list -> printed_since w w' = extra.
Proof. unfold printed_since. intros ->. apply drop_app_length. Qed.

(** One round of the repository loop, by what the fetch came to. *)
Lemma fetch_repo_step (gh : GitHubClient) (user : string) (s e : datetime)
    (verbose : bool) (n : nat) (acc : list PullRequestRecord)
    (jp : nat * Project) (w : world) :
  fetch_repo gh user s e verbose n acc jp w
  = match get_user_pull_requests gh (repo_name_of jp.2) user s e verbose
            (at_fetch user verbose n jp w) with
    | (inr prs, w1) =>
        (inr (acc ++ prs)%list,
         say verbose
           (debug_note ("Found " +:+ PyStr.of_nat (length prs) +:+ " PRs in "
                          +:+ repo_name_of jp.2)) w1)
    | (inl ex, w1) =>
        (inr acc,
         write_line (repo_error (repo_name_of jp.2) ex)
           (say verbose
              (debug_note ("Error in " +:+ repo_name_of jp.2 +:+ ": "
                             +:+ exn_str ex)) w1))
    end.
Proof.
  unfold fetch_repo, at_fetch, try_except, bind, debug_print.
  rewrite !when_print. simpl.
  destruct (get_user_pull_requests _ _ _ _ _ _ _) as [[ex|prs] w1]; simpl;
    now rewrite when_print.
Qed.

Lemma at_fetch_stdout (user : string) (verbose : bool) (n : nat)
    (jp : nat * Project) (w : world) :
  exists lines,
    stdout (at_fetch user verbose n jp w) = (stdout w ++ lines)%list
    /\ Forall plain lines.
Proof.
  unfold at_fetch.
  match goal with |- context [(?m w).2] => assert (Hm : emits plain m) end.
  { repeat emits_step. }
  apply Hm.
Qed.


Lemma plain_no_header (line : string) : plain line -> no_header line.
Proof. now intros [_ ?]. Qed.

Ltac no_header_step :=
  first
    [ apply (emits_weaken plain no_header _ plain_no_header);
      first [ apply get_user_emits | apply get_user_activities_emits
            | apply get_all_emits ]
    | emits_step
    | reflexivity ].

Lemma jira_section_emits (jc : JiraClient) (member : Member) (s e : datetime)
    (verbose only_title : bool) :
  emits no_header (jira_section jc member s e verbose only_title).
Proof.
  unfold jira_section.
  apply emits_bind; [repeat no_header_step |]. intros _.
  apply emits_try; [| repeat no_header_step].
  apply emits_bind; [repeat no_header_step |].
  intros jira_issues. apply emits_bind; [repeat no_header_step |].
  intros _. destruct jira_issues as [|issue rest]; [repeat no_header_step |].
  apply emits_bind; [repeat no_header_step |].
  intros _. apply emits_for_each. intros [] record.
  apply emits_bind; [repeat no_header_step |].
  intros _. destruct (_ && _); repeat no_header_step.
Qed.

Lemma fetch_repo_emits (gh : GitHubClient) (user : string) (s e : datetime)
    (verbose : bool) (n : nat) (acc : list PullRequestRecord)
    (jp : nat * Project) :
  emits no_header (fetch_repo gh user s e verbose n acc jp).
Proof. unfold fetch_repo. repeat no_header_step. Qed.

Lemma github_section_emits (gh : GitHubClient) (member : Member) (s e : datetime)
    (verbose : bool) (team : Team) :
  emits no_header (github_section gh member s e verbose team).
Proof.
  unfold github_section.
  apply emits_bind; [repeat no_header_step |]. intros _.
  apply emits_bind; [repeat no_header_step |]. intros _.
  apply emits_try; [| repeat no_header_step].
  apply emits_bind.
  { unfold collect_prs. apply emits_for_each. intros acc jp.
    apply fetch_repo_emits. }
  intros all_prs. apply emits_bind; [repeat no_header_step |].
  intros _. destruct all_prs; repeat no_header_step.
Qed.

Lemma jira_section_never_raises (jc : JiraClient) (member : Member)
    (s e : datetime) (verbose only_title : bool) :
  never_raises (jira_section jc member s e verbose only_title).
Proof.
  unfold jira_section. apply never_raises_bind.
  - apply never_raises_debug_print.
  - intros _. apply never_raises_try. intros ex. apply never_raises_print.
Qed.

Lemma github_section_never_raises (gh : GitHubClient) (member : Member)
    (s e : datetime) (verbose : bool) (team : Team) :
  never_raises (github_section gh member s e verbose team).
Proof.
  unfold github_section.
  do 2 (apply never_raises_bind; [apply never_raises_debug_print | intros _]).
  apply never_raises_try. intros ex.
  apply never_raises_bind; [apply never_raises_debug_print | intros _].
  apply never_raises_print.
Qed.

(** One member: the header, then lines that are no header; no exception
    leaves the round. *)
Lemma process_member_run (jc : JiraClient) (gh : GitHubClient) (s e : datetime)
    (verbose only_title : bool) (team : Team) (im : nat * Member) (w : world) :
  exists w' extra,
    process_member jc gh s e verbose only_title team tt im w = (inr tt, w')
    /\ stdout w' = (stdout w ++ member_header im.2 :: extra)%list
    /\ Forall no_header extra.
Proof.
  unfold process_member.
  match goal with |- context [bind (print (member_header im.2)) ?k] =>
    set (rest := k tt) end.
  assert (Hnr : never_raises rest).
  { subst rest. cbv beta.
    apply never_raises_bind; [apply never_raises_print | intros _].
    apply never_raises_bind; [apply never_raises_debug_print | intros _].
    apply never_raises_bind; [apply jira_section_never_raises | intros _].
    apply never_raises_bind; [apply github_section_never_raises | intros _].
    apply never_raises_debug_print. }
  assert (Hem : emits no_header rest).
  { subst rest. cbv beta.
    apply emits_bind; [apply emits_print; reflexivity | intros _].
    apply emits_bind; [repeat no_header_step | intros _].
    apply emits_bind; [apply jira_section_emits | intros _].
    apply emits_bind; [apply github_section_emits | intros _].
    repeat no_header_step. }
  unfold bind at 1. cbn [print modify].
  destruct (Hnr (write_line (member_header im.2) w)) as ([] & w' & Hrun).
  destruct (Hem (write_line (member_header im.2) w)) as (extra & Hout & Hno).
  exists w', extra. split; [exact Hrun |]. split; [| exact Hno].
  fold rest in Hout. rewrite Hrun in Hout. cbn [snd stdout write_line] in Hout.
  now rewrite Hout, <- app_assoc.
Qed.

Lemma process_loop (jc : JiraClient) (gh : GitHubClient) (s e : datetime)
    (verbose only_title : bool) (team : Team) (ims : list (nat * Member)) :
  forall w,
  exists w' extra,
    for_each (process_member jc gh s e verbose only_title team) ims tt w
    = (inr tt, w')
    /\ stdout w' = (stdout w ++ extra)%list
    /\ List.filter is_member_header extra = map (fun im => member_header im.2) ims.
Proof.
  induction ims as [|im ims IH]; intros w.
  - exists w, []. simpl. now rewrite app_nil_r.
  - cbn [for_each]. unfold bind.
    destruct (process_member_run jc gh s e verbose only_title team im w)
      as (w1 & x1 & -> & Hout1 & Hno1).
    destruct (IH w1) as (w' & x2 & Hrun & Hout2 & Hhead).
    exists w', (member_header im.2 :: x1 ++ x2)%list.
    split; [exact Hrun |]. split.
    + rewrite Hout2, Hout1, <- app_assoc. reflexivity.
    + cbn [List.filter map]. rewrite member_header_is_header.
      now rewrite List.filter_app, (filter_no_header x1), Hhead.
Qed.

Lemma enumerate1_members {X} (xs : list X) : map snd (enumerate1 xs) = xs.
Proof.
  unfold enumerate1. generalize 1.
  induction xs as [|x xs IH]; intros k; simpl; [reflexivity |].
  now rewrite IH.
Qed.


(** ** Raising *)

Lemma keep_pull_loop_raise (repo_name : string) (s e : datetime)
    (prs_data : list pull) :
  forall acc ex,
    for_each_pure (keep_pull repo_name s e) prs_data acc = inl ex ->
    exists pr, In pr prs_data /\ timestamp_of (pull_updated_at pr) = inl ex.
Proof.
  induction prs_data as [|pr prs IH]; simpl; intros acc ex; [discriminate |].
  destruct (keep_pull repo_name s e acc pr) as [ex'|acc'] eqn:Hstep.
  - intros [= ->]. exists pr. split; [now left |].
    unfold keep_pull in Hstep.
    destruct (timestamp_of (pull_updated_at pr)) as [?|t]; [congruence |].
    destruct (in_range s e t); discriminate.
  - intros Hrest. apply IH in Hrest as (pr' & Hin & Hts). eauto.
Qed.

Lemma scan_history_loop_raise (s e : datetime) (hs : list History) :
  forall acc ex,
    for_each_pure (scan_history s e) hs acc = inl ex ->
    exists h, In h hs /\ timestamp_of (created h) = inl ex.
Proof.
  induction hs as [|h hs IH]; simpl; intros acc ex; [discriminate |].
  destruct (scan_history s e acc h) as [ex'|acc'] eqn:Hstep.
  - intros [= ->]. exists h. split; [now left |].
    unfold scan_history in Hstep.
    destruct (timestamp_of (created h)) as [?|t]; [congruence |].
    destruct (in_range s e t); [| discriminate].
    rewrite add_change_loop in Hstep. discriminate.
  - intros Hrest. apply IH in Hrest as (h' & Hin & Hts). eauto.
Qed.

Lemma add_issue_loop_raise (s e : datetime) (iss : list Issue) :
  forall acc ex,
    for_each_pure (add_issue s e) iss acc = inl ex ->
    exists issue h,
      In issue iss /\ In h (histories_of issue)
      /\ timestamp_of (created h) = inl ex.
Proof.
  induction iss as [|issue iss IH]; simpl; intros acc ex; [discriminate |].
  destruct (add_issue s e acc issue) as [ex'|acc'] eqn:Hstep.
  - intros [= ->]. unfold add_issue in Hstep.
    destruct (recent_changes_of s e issue) as [ex'|rc] eqn:Hrc; [| discriminate].
    injection Hstep as ->.
    unfold recent_changes_of in Hrc.
    destruct (issue_changelog issue) as [[[hs|]]|] eqn:Hcl; try discriminate.
    apply scan_history_loop_raise in Hrc as (h & Hin & Hts).
    exists issue, h. split; [now left |]. split; [| assumption].
    unfold histories_of. now rewrite Hcl.
  - intros Hrest. apply IH in Hrest as (issue' & h & Hin & Hh & Hts).
    exists issue', h. auto.
Qed.

Lemma keep_pull_loop_parse (repo_name : string) (s e : datetime)
    (prs_data : list pull) :
  forall acc out,
    for_each_pure (keep_pull repo_name s e) prs_data acc = inr out ->
    all_parse (map pull_updated_at prs_data).
Proof.
  induction prs_data as [|pr prs IH]; simpl; intros acc out Hrun; [constructor |].
  destruct (keep_pull repo_name s e acc pr) as [ex|acc'] eqn:Hstep; [discriminate |].
  constructor; [| eapply IH; eassumption].
  unfold keep_pull in Hstep.
  destruct (timestamp_of (pull_updated_at pr)) as [ex|t]; [discriminate | eauto].
Qed.

(** A list with a timestamp that does not parse is not one whose
    timestamps all parse. *)
Lemma not_all_parse (tss : list string) (ts : string) (ex : exn) :
  In ts tss -> timestamp_of ts = inl ex -> ~ all_parse tss.
Proof.
  intros Hin Hbad Hall. unfold all_parse in Hall.
  rewrite List.Forall_forall in Hall.
  destruct (Hall ts Hin) as [t Ht]. congruence.
Qed.

(** C7, amended. A fetch whose remote call answers with a status other
    than 200 raises an exception whose text holds the status code and
    the response body.  That is not the only way to raise: the fetch
    also raises when the request itself raises, when the body of a 200
    answer does not decode, and when a timestamp of a 200 answer does
    not parse.  A cache hit returns. *)
Theorem fetch_raises_cases (gh : GitHubClient) (jc : JiraClient)
    (repo_name email : string) (s e : datetime) (verbose : bool)
    (w wj : world) :
  let pulls := github_api (length (sent w)) (pulls_request gh repo_name) in
  let search :=
    jira_api (length (sent wj)) (search_request jc (jql_of email s e)) in
  let fetch_pulls := get_all_pull_requests gh repo_name s e verbose w in
  let fetch_issues := get_user_activities jc email s e verbose wj in
  (* a status other than 200 *)
  (forall r, _cache w !! _get_cache_key repo_name s e = None ->
             pulls = inr r -> status_code r <> 200%Z ->
             fetch_pulls
             = (inl (api_error "GitHub" r), requested gh repo_name verbose w))
  /\ (forall r, search = inr r -> status_code r <> 200%Z ->
                fetch_issues
                = (inl (api_error "Jira" r), searched jc email s e verbose wj))
  /\ (forall (service : string) (r : response (list pull))
             (rj : response SearchResult),
        api_error service r
        = Raised Exception
            (service +:+ " API error: " +:+ PyStr.of_Z (status_code r) +:+ " - "
               +:+ text r)
        /\ api_error service rj
           = Raised Exception
               (service +:+ " API error: " +:+ PyStr.of_Z (status_code rj)
                  +:+ " - " +:+ text rj))
  (* the request itself raises *)
  /\ (forall ex, _cache w !! _get_cache_key repo_name s e = None ->
                 pulls = inl ex ->
                 fetch_pulls = (inl ex, requested gh repo_name verbose w))
  /\ (forall ex, search = inl ex ->
                 fetch_issues = (inl ex, searched jc email s e verbose wj))
  (* the body of a 200 answer does not decode *)
  /\ (forall r ex, _cache w !! _get_cache_key repo_name s e = None ->
                   pulls = inr r -> status_code r = 200%Z -> json r = inl ex ->
                   fetch_pulls = (inl ex, requested gh repo_name verbose w))
  /\ (forall r ex, search = inr r -> status_code r = 200%Z -> json r = inl ex ->
                   fetch_issues = (inl ex, searched jc email s e verbose wj))
  (* a timestamp of a 200 answer does not parse *)
  /\ (forall r prs_data pr ex,
        _cache w !! _get_cache_key repo_name s e = None ->
        pulls = inr r -> status_code r = 200%Z -> json r = inr prs_data ->
        In pr prs_data -> timestamp_of (pull_updated_at pr) = inl ex ->
        exists ex', fetch_pulls = (inl ex', requested gh repo_name verbose w))
  /\ (forall r data issue h ex,
        search = inr r -> status_code r = 200%Z -> json r = inr data ->
        In issue (default [] (issues data)) -> In h (histories_of issue) ->
        timestamp_of (created h) = inl ex ->
        exists ex', fetch_issues = (inl ex', searched jc email s e verbose wj))
  (* a hit *)
  /\ (forall cached, _cache w !! _get_cache_key repo_name s e = Some cached ->
                     fetch_pulls.1 = inr cached).
Proof.
  intros pulls search fetch_pulls fetch_issues.
  subst pulls search fetch_pulls fetch_issues.
  repeat match goal with |- _ /\ _ => split end.
  - intros r Hmiss Hapi Hst. rewrite get_all_miss by assumption. simpl.
    rewrite Hapi. apply Z.eqb_neq in Hst. now rewrite Hst.
  - intros r Hapi Hst. rewrite get_user_activities_run. simpl.
    rewrite Hapi. apply Z.eqb_neq in Hst. now rewrite Hst.
  - intros service r rj. split; reflexivity.
  - intros ex Hmiss Hapi. rewrite get_all_miss by assumption. simpl.
    now rewrite Hapi.
  - intros ex Hapi. rewrite get_user_activities_run. simpl. now rewrite Hapi.
  - intros r ex Hmiss Hapi Hst Hjson. rewrite get_all_miss by assumption. simpl.
    now rewrite Hapi, Hst, Hjson.
  - intros r ex Hapi Hst Hjson. rewrite get_user_activities_run. simpl.
    now rewrite Hapi, Hst, Hjson.
  - intros r prs_data pr ex Hmiss Hapi Hst Hjson Hin Hbad.
    rewrite get_all_miss by assumption. simpl. rewrite Hapi, Hst, Hjson. simpl.
    destruct (for_each_pure _ _ _) as [ex'|out] eqn:Hloop; [eauto |].
    apply keep_pull_loop_parse in Hloop.
    exfalso. eapply not_all_parse; [| exact Hbad | exact Hloop].
    now apply in_map.
  - intros r data issue h ex Hapi Hst Hjson Hissue Hh Hbad.
    rewrite get_user_activities_run. simpl. rewrite Hapi, Hst, Hjson. simpl.
    destruct (for_each_pure _ _ _) as [ex'|out] eqn:Hloop; [eauto |].
    apply add_issue_loop_parse in Hloop.
    exfalso. eapply not_all_parse; [| exact Hbad | exact Hloop].
    apply in_map, in_flat_map. eauto.
  - intros cached Hhit. now rewrite (get_all_hit _ _ _ _ _ _ cached Hhit).
Qed.

(** ** Loading the cache *)

(** C8. When the cache file is missing, cannot be opened or does not
    hold JSON, loading gives the empty mapping without raising, the
    client is built with an empty cache, and the next fetch, for any
    repository and range, sends its request. *)
Theorem unusable_cache_file_loads_empty (t : string) (w : world) :
  t <> EmptyString ->
  unusable (cache_file w) ->
  _load_cache w = (inr ∅, w)
  /\ GitHubClient_init (Some t) w
     = (inr (mk_github t "https://api.github.com"), set_cache ∅ w)
  /\ forall gh repo_name s e verbose,
       sent (get_all_pull_requests gh repo_name s e verbose (set_cache ∅ w)).2
       = (sent w ++ [pulls_request gh repo_name])%list.
Proof.
  intros Ht Hfile.
  assert (Hload : _load_cache w = (inr ∅, w)).
  { unfold _load_cache, try_except, bind, get_world. simpl.
    destruct Hfile as [-> | [-> | (text & ex & -> & Hjson)]];
      try reflexivity.
    unfold lift. now rewrite Hjson. }
  split; [exact Hload |]. split.
  - destruct t as [|a t]; [contradiction |].
    unfold GitHubClient_init, bind. now rewrite Hload.
  - intros gh repo_name s e verbose. rewrite get_all_sent. simpl.
    now rewrite lookup_empty.
Qed.

(** ** More on the cache *)

Lemma requested_parts (self : GitHubClient) (repo_name : string) (verbose : bool)
    (w : world) :
  _cache (requested self repo_name verbose w) = _cache w
  /\ cache_file (requested self repo_name verbose w) = cache_file w
  /\ open_w_error (requested self repo_name verbose w) = open_w_error w
  /\ sent (requested self repo_name verbose w)
     = (sent w ++ [pulls_request self repo_name])%list
  /\ stdout (requested self repo_name verbose w)
     = (stdout w ++ if verbose
                    then [api_note ("GET " +:+ url (pulls_request self repo_name))]
                    else [])%list.
Proof.
  unfold requested. destruct verbose; simpl; repeat split; try reflexivity.
  now rewrite app_nil_r.
Qed.

(** A fetch that raises found nothing under the key and stops right
    after its request. *)
Lemma get_all_raise_world (self : GitHubClient) (repo_name : string)
    (s e : datetime) (verbose : bool) (w w' : world) (ex : exn) :
  get_all_pull_requests self repo_name s e verbose w = (inl ex, w') ->
  _cache w !! _get_cache_key repo_name s e = None
  /\ w' = requested self repo_name verbose w.
Proof.
  intros Hrun.
  destruct (_cache w !! _get_cache_key repo_name s e) as [cached|] eqn:Hc.
  { erewrite get_all_hit in Hrun by eassumption. discriminate. }
  split; [reflexivity |].
  rewrite get_all_miss in Hrun by assumption. simpl in Hrun.
  destruct (github_api _ _) as [?|r]; [congruence |].
  destruct (status_code r =? 200)%Z; [| congruence].
  destruct (json r) as [?|prs_data]; [congruence |].
  destruct (for_each_pure _ _ _); [congruence | discriminate].
Qed.

(** A fetch that returns after a miss has stored its records and saved. *)
Lemma get_all_return_world (self : GitHubClient) (repo_name : string)
    (s e : datetime) (verbose : bool) (w w' : world)
    (rs : list PullRequestRecord) :
  _cache w !! _get_cache_key repo_name s e = None ->
  get_all_pull_requests self repo_name s e verbose w = (inr rs, w') ->
  w' = saved (set_cache (<[_get_cache_key repo_name s e := rs]> (_cache w))
                (requested self repo_name verbose w)).
Proof.
  intros Hmiss Hrun. rewrite get_all_miss in Hrun by assumption. simpl in Hrun.
  destruct (github_api _ _) as [?|r]; [discriminate |].
  destruct (status_code r =? 200)%Z; [| discriminate].
  destruct (json r) as [?|prs_data]; [discriminate |].
  destruct (for_each_pure _ _ _); [discriminate | congruence].
Qed.

(** X1. A fetch that raises leaves the cache and the cache file as they
    were: the failure is not remembered, and the same fetch made again
    sends its request again. *)
Theorem failed_fetch_not_cached (gh : GitHubClient) (repo_name : string)
    (s e : datetime) (verbose : bool) (w w' : world) (ex : exn) :
  get_all_pull_requests gh repo_name s e verbose w = (inl ex, w') ->
  _cache w' = _cache w
  /\ cache_file w' = cache_file w
  /\ sent w' = (sent w ++ [pulls_request gh repo_name])%list
  /\ sent (get_all_pull_requests gh repo_name s e verbose w').2
     = (sent w ++ [pulls_request gh repo_name; pulls_request gh repo_name])%list.
Proof.
  intros Hrun. apply get_all_raise_world in Hrun as [Hmiss ->].
  destruct (requested_parts gh repo_name verbose w)
    as (Hcache & Hfile & _ & Hsent & _).
  repeat split; try assumption.
  rewrite get_all_sent, Hcache, Hmiss, Hsent, <- app_assoc. reflexivity.
Qed.

(** X2. A fetch that returns leaves the cache equal to the one it found
    with its records stored under its own key: no other entry is added,
    changed or dropped. *)
Theorem fetch_stores_under_its_key (gh : GitHubClient) (repo_name : string)
    (s e : datetime) (verbose : bool) (w w' : world)
    (rs : list PullRequestRecord) :
  get_all_pull_requests gh repo_name s e verbose w = (inr rs, w') ->
  _cache w' = <[_get_cache_key repo_name s e := rs]> (_cache w)
  /\ forall k, k <> _get_cache_key repo_name s e -> _cache w' !! k = _cache w !! k.
Proof.
  intros Hrun.
  assert (Hcache : _cache w' = <[_get_cache_key repo_name s e := rs]> (_cache w)).
  { destruct (_cache w !! _get_cache_key repo_name s e) as [cached|] eqn:Hc.
    - erewrite get_all_hit in Hrun by eassumption.
      injection Hrun as <- <-. rewrite say_cache.
      symmetry. now apply insert_id.
    - apply get_all_return_world in Hrun as ->; [| assumption].
      now rewrite saved_cache. }
  split; [exact Hcache |].
  intros k Hk. rewrite Hcache. now apply lookup_insert_ne.
Qed.

(** X3. After a miss that returns, the records are in the in-memory
    cache however the save went, and the call has returned them.  If the
    save does not fail, the file holds the dump of the whole cache and
    nothing is printed about it.  If the [open] raises, the file is left
    as it was and one warning is printed.  If the write raises after the
    [open] emptied the file, the file holds what got written and one
    warning is printed. *)
Theorem fetched_records_written_through (gh : GitHubClient) (repo_name : string)
    (s e : datetime) (verbose : bool) (w w' : world)
    (rs : list PullRequestRecord) :
  _cache w !! _get_cache_key repo_name s e = None ->
  get_all_pull_requests gh repo_name s e verbose w = (inr rs, w') ->
  let note := if verbose
              then [api_note ("GET " +:+ url (pulls_request gh repo_name))]
              else [] in
  _cache w' !! _get_cache_key repo_name s e = Some rs
  /\ match open_w_error w with
     | None =>
         cache_file w' = Content (json_dump (_cache w'))
         /\ printed_since w w' = note
     | Some (OpenFails ex) =>
         cache_file w' = cache_file w
         /\ printed_since w w' = (note ++ [save_warning ex])%list
     | Some (WriteFails written ex) =>
         cache_file w' = Content written
         /\ printed_since w w' = (note ++ [save_warning ex])%list
     end.
Proof.
  intros Hmiss Hrun note. subst note.
  split; [eapply get_all_cached; eassumption |].
  apply get_all_return_world in Hrun as ->; [| assumption].
  destruct (requested_parts gh repo_name verbose w)
    as (Hcache & Hfile & Herr & _ & Hout).
  unfold saved. cbn [open_w_error set_cache]. rewrite Herr.
  destruct (open_w_error w) as [[ex|written ex]|].
  - split; [exact Hfile |]. apply printed_since_app.
    cbn [stdout write_line set_cache]. now rewrite Hout, <- app_assoc.
  - split; [reflexivity |]. apply printed_since_app.
    cbn [stdout write_line set_cache set_cache_file].
    now rewrite Hout, <- app_assoc.
  - split; [reflexivity |]. apply printed_since_app. exact Hout.
Qed.

(** After a miss that returns with a writable file, the file holds the
    dump of the cache. *)
Lemma written_file_holds_cache (self : GitHubClient)
    (repo_name : string) (s e : datetime) (verbose : bool) (w w' : world)
    (rs : list PullRequestRecord) :
  _cache w !! _get_cache_key repo_name s e = None ->
  get_all_pull_requests self repo_name s e verbose w = (inr rs, w') ->
  open_w_error w = None ->
  _cache w' !! _get_cache_key repo_name s e = Some rs
  /\ cache_file w' = Content (json_dump (_cache w')).
Proof.
  intros Hmiss Hrun Hopen. split; [eapply get_all_cached; eassumption |].
  apply get_all_return_world in Hrun as ->; [| assumption].
  destruct (requested_parts self repo_name verbose w) as (_ & _ & Herr & _).
  unfold saved. cbn [open_w_error set_cache]. now rewrite Herr, Hopen.
Qed.

(** X4. What one run wrote, the next run reads: if the fetch missed,
    returned and could write the file, and the loader reads the dump
    back, then a client built later on that file answers the same
    repository, for any range of the same two days, from its cache,
    with the same records and without sending anything. *)
Theorem next_run_reuses_file (gh : GitHubClient) (repo_name t : string)
    (s e s' e' : datetime) (verbose : bool) (w w1 w2 : world)
    (rs : list PullRequestRecord) :
  _cache w !! _get_cache_key repo_name s e = None ->
  get_all_pull_requests gh repo_name s e verbose w = (inr rs, w1) ->
  open_w_error w = None ->
  json_load (json_dump (_cache w1)) = inr (_cache w1) ->
  t <> EmptyString ->
  cache_file w2 = cache_file w1 ->
  date s' = date s -> date e' = date e ->
  exists gh2 w3 w4,
    GitHubClient_init (Some t) w2 = (inr gh2, w3)
    /\ get_all_pull_requests gh2 repo_name s' e' verbose w3 = (inr rs, w4)
    /\ sent w4 = sent w2.
Proof.
  intros Hmiss Hrun Hopen Hround Ht Hfile Hs He.
  destruct (written_file_holds_cache gh repo_name s e verbose w w1 rs
              Hmiss Hrun Hopen) as [Hstored Hdisk].
  destruct t as [|a t]; [contradiction |].
  assert (Hload : _load_cache w2 = (inr (_cache w1), w2)).
  { unfold _load_cache, try_except, bind, get_world, lift. simpl.
    now rewrite Hfile, Hdisk, Hround. }
  assert (Hkey : _get_cache_key repo_name s' e' = _get_cache_key repo_name s e).
  { unfold date in Hs, He. injection Hs as ? ? ?. injection He as ? ? ?.
    unfold _get_cache_key, strftime_Ymd. congruence. }
  eexists _, _, _. split; [| split].
  - unfold GitHubClient_init, bind. rewrite Hload. reflexivity.
  - apply get_all_hit. rewrite Hkey. exact Hstored.
  - now rewrite say_sent.
Qed.

(** ** More on the issue-tracker fetch *)

Lemma searched_parts (self : JiraClient) (email : string) (s e : datetime)
    (verbose : bool) (w : world) :
  _cache (searched self email s e verbose w) = _cache w
  /\ cache_file (searched self email s e verbose w) = cache_file w
  /\ sent (searched self email s e verbose w)
     = (sent w ++ [search_request self (jql_of email s e)])%list.
Proof. unfold searched. destruct verbose; simpl; repeat split; reflexivity. Qed.

(** The world [get_user_activities] ends in, whatever it returns. *)
Lemma get_user_activities_world (self : JiraClient) (email : string)
    (s e : datetime) (verbose : bool) (w : world) :
  (get_user_activities self email s e verbose w).2
  = searched self email s e verbose w.
Proof.
  rewrite get_user_activities_run. simpl.
  destruct (jira_api _ _) as [?|r]; [reflexivity |].
  destruct (status_code r =? 200)%Z; [| reflexivity].
  now destruct (json r).
Qed.

(** X5. The issue-tracker fetch keeps nothing: whatever the answer, a
    call sends exactly one request and leaves the cache and the cache
    file alone, so the same call made twice sends the same request
    twice. *)
Theorem issue_fetch_always_asks (jc : JiraClient) (email : string)
    (s e : datetime) (verbose : bool) (w : world) :
  let rq := search_request jc (jql_of email s e) in
  let w1 := (get_user_activities jc email s e verbose w).2 in
  let w2 := (get_user_activities jc email s e verbose w1).2 in
  sent w1 = (sent w ++ [rq])%list
  /\ sent w2 = (sent w ++ [rq; rq])%list
  /\ _cache w2 = _cache w
  /\ cache_file w2 = cache_file w.
Proof.
  intros rq w1 w2. subst w1 w2 rq. rewrite !get_user_activities_world.
  destruct (searched_parts jc email s e verbose w) as (Hc1 & Hf1 & Hs1).
  destruct (searched_parts jc email s e verbose (searched jc email s e verbose w))
    as (Hc2 & Hf2 & Hs2).
  split; [exact Hs1 |]. split; [| split; congruence].
  rewrite Hs2, Hs1, <- app_assoc. reflexivity.
Qed.

(** ** Ranges that hold nothing *)

Lemma retained_range (s e : datetime) (ts : string) :
  retained s e ts = true -> dt_le s e.
Proof.
  unfold retained. destruct (timestamp_of ts) as [?|t]; [discriminate |].
  rewrite in_range_le. intros [Hst Hte]. eapply dt_le_trans; eassumption.
Qed.

(** X6. When the start of the range is after its end, nothing passes the
    range test: a code-hosting fetch that reads the remote answer
    returns no record and stores the empty list under the key, and the
    issue-tracker fetch returns its records with no change. *)
Theorem inverted_range_keeps_nothing (gh : GitHubClient) (jc : JiraClient)
    (repo_name email : string) (s e : datetime) (verbose : bool) (w wj : world)
    (r : response (list pull)) (prs_data : list pull)
    (rj : response SearchResult) (data : SearchResult) :
  ~ dt_le s e ->
  _cache w !! _get_cache_key repo_name s e = None ->
  github_api (length (sent w)) (pulls_request gh repo_name) = inr r ->
  status_code r = 200%Z ->
  json r = inr prs_data ->
  all_parse (map pull_updated_at prs_data) ->
  jira_api (length (sent wj)) (search_request jc (jql_of email s e)) = inr rj ->
  status_code rj = 200%Z ->
  json rj = inr data ->
  all_parse (map created (flat_map histories_of (default [] (issues data)))) ->
  (get_all_pull_requests gh repo_name s e verbose w).1 = inr []
  /\ _cache (get_all_pull_requests gh repo_name s e verbose w).2
       !! _get_cache_key repo_name s e = Some []
  /\ exists records,
       (get_user_activities jc email s e verbose wj).1 = inr records
       /\ length records = length (default [] (issues data))
       /\ Forall (fun record => changes record = []) records.
Proof.
  intros Hinv Hmiss Hgh H200 Hjson Hparse Hjira Hj200 Hjjson Hjparse.
  assert (Hnone : forall ts, retained s e ts = false).
  { intros ts. destruct (retained s e ts) eqn:Hret; [| reflexivity].
    now apply retained_range in Hret. }
  assert (Hrun : (get_all_pull_requests gh repo_name s e verbose w).1 = inr []).
  { rewrite get_all_miss by assumption. simpl.
    rewrite Hgh, H200, Hjson. simpl. rewrite keep_pull_loop by assumption.
    simpl. rewrite filter_none; [reflexivity | intros; apply Hnone]. }
  split; [exact Hrun |]. split.
  - destruct (get_all_pull_requests gh repo_name s e verbose w) as [res w'] eqn:Hall.
    simpl in *. subst res. eapply get_all_cached; eassumption.
  - exists (map (activity_of s e) (default [] (issues data))).
    split; [| split].
    + rewrite get_user_activities_run. simpl.
      rewrite Hjira, Hj200, Hjjson. simpl. now apply add_issue_loop.
    + apply length_map.
    + rewrite Forall_map. apply List.Forall_forall. intros issue _. simpl.
      rewrite emitted_items_none; [reflexivity |].
      intros h _. left. apply Hnone.
Qed.

(** ** The verbose flag *)

Lemma quiet_eq (w1 w2 : world) :
  quiet w1 = quiet w2 <->
  _cache w1 = _cache w2 /\ cache_file w1 = cache_file w2
  /\ open_w_error w1 = open_w_error w2 /\ sent w1 = sent w2.
Proof.
  destruct w1, w2. unfold quiet. simpl. split.
  - intros [= -> -> -> ->]. auto.
  - intros (-> & -> & -> & ->). reflexivity.
Qed.

Lemma quiet_say (verbose : bool) (line : string) (w : world) :
  quiet (say verbose line w) = quiet w.
Proof. now destruct verbose. Qed.

Lemma quiet_saved (w1 w2 : world) :
  quiet w1 = quiet w2 -> quiet (saved w1) = quiet (saved w2).
Proof.
  rewrite !quiet_eq. intros (Hc & Hf & He & Hs). unfold saved.
  rewrite He, Hc. destruct (open_w_error w2) as [[ex|written ex]|] eqn:Hw; simpl;
    repeat split; congruence.
Qed.

(** X7. The verbose flag only adds lines: with and without it, the two
    fetches return or raise the same, and leave the same cache, the same
    file and the same requests sent. *)
Theorem verbose_only_prints (gh : GitHubClient) (jc : JiraClient)
    (repo_name email : string) (s e : datetime) (w : world) :
  let loud := get_all_pull_requests gh repo_name s e true w in
  let calm := get_all_pull_requests gh repo_name s e false w in
  let loud_search := get_user_activities jc email s e true w in
  let calm_search := get_user_activities jc email s e false w in
  loud.1 = calm.1 /\ quiet loud.2 = quiet calm.2
  /\ loud_search.1 = calm_search.1 /\ quiet loud_search.2 = quiet calm_search.2.
Proof.
  intros loud calm loud_search calm_search.
  subst loud calm loud_search calm_search.
  assert (Hreq : forall v, quiet (requested gh repo_name v w)
                           = quiet (requested gh repo_name false w)).
  { intros v. apply quiet_eq.
    destruct (requested_parts gh repo_name v w) as (-> & -> & -> & -> & _).
    destruct (requested_parts gh repo_name false w) as (-> & -> & -> & -> & _).
    auto. }
  split; [| split; [| split]].
  - destruct (_cache w !! _get_cache_key repo_name s e) as [cached|] eqn:Hc.
    + now rewrite !(get_all_hit _ _ _ _ _ _ cached Hc).
    + rewrite !get_all_miss by assumption. simpl.
      destruct (github_api _ _) as [?|r]; [reflexivity |].
      destruct (status_code r =? 200)%Z; [| reflexivity].
      destruct (json r) as [?|prs_data]; [reflexivity |].
      now destruct (for_each_pure _ _ _).
  - destruct (_cache w !! _get_cache_key repo_name s e) as [cached|] eqn:Hc.
    + rewrite !(get_all_hit _ _ _ _ _ _ cached Hc). cbn [snd].
      now rewrite !quiet_say.
    + rewrite !get_all_miss by assumption. simpl.
      destruct (github_api _ _) as [?|r]; [apply Hreq |].
      destruct (status_code r =? 200)%Z; [| apply Hreq].
      destruct (json r) as [?|prs_data]; [apply Hreq |].
      destruct (for_each_pure _ _ _); [apply Hreq |]. simpl.
      apply quiet_saved. apply quiet_eq.
      pose proof (Hreq true) as Hq. apply quiet_eq in Hq.
      destruct Hq as (Hc1 & Hf1 & He1 & Hs1). simpl. auto.
  - rewrite !get_user_activities_run. simpl.
    destruct (jira_api _ _) as [?|r]; [reflexivity |].
    destruct (status_code r =? 200)%Z; [| reflexivity].
    now destruct (json r).
  - rewrite !get_user_activities_world. apply quiet_eq.
    destruct (searched_parts jc email s e true w) as (-> & -> & ->).
    destruct (searched_parts jc email s e false w) as (-> & -> & ->).
    unfold searched. simpl. auto.
Qed.

(** ** Building the clients *)

(** X8. The code-hosting client is built exactly when the token is there
    and not empty.  Without it the constructor raises before the cache
    file is looked at; with it the constructor never raises, whatever
    the file: the client starts from the mapping the file holds when
    that loads, and from the empty mapping otherwise. *)
Theorem github_client_construction (GITHUB_TOKEN : option string) (w : world) :
  (present GITHUB_TOKEN = false ->
   GitHubClient_init GITHUB_TOKEN w
   = (inl (Raised ValueError "GITHUB_TOKEN environment variable is required"), w))
  /\ (forall t, GITHUB_TOKEN = Some t -> present GITHUB_TOKEN = true ->
        exists c,
          GitHubClient_init GITHUB_TOKEN w
          = (inr (mk_github t "https://api.github.com"), set_cache c w)
          /\ (forall text m, cache_file w = Content text ->
                             json_load text = inr m -> c = m)
          /\ (unusable (cache_file w) -> c = ∅)).
Proof.
  split.
  - destruct GITHUB_TOKEN as [[|a t]|]; simpl; [reflexivity | discriminate |
                                                 reflexivity].
  - intros t -> Ht. destruct t as [|a t]; [discriminate |].
    unfold GitHubClient_init, _load_cache, try_except, bind, get_world, lift,
      modify, unusable. simpl.
    destruct (cache_file w) as [| |text] eqn:Hfile.
    + exists ∅. split; [reflexivity |]. split; [discriminate | reflexivity].
    + exists ∅. split; [reflexivity |]. split; [discriminate | reflexivity].
    + destruct (json_load text) as [ex|m] eqn:Hload.
      * exists ∅. split; [reflexivity |]. split; [| reflexivity].
        intros text' m' [= <-]. congruence.
      * exists m. split; [reflexivity |]. split.
        -- intros text' m' [= <-]. congruence.
        -- intros [? | [? | (text' & ex & [= <-] & Hbad)]]; congruence.
Qed.

(** X9. The issue-tracker client is built exactly when the base URL, the
    user name and the API token are all there and not empty; it then
    holds the three values.  Otherwise the constructor raises a
    [ValueError].  Either way the world is left as it was. *)
Theorem jira_client_construction
    (JIRA_BASE_URL JIRA_USERNAME JIRA_API_TOKEN : option string) (w : world) :
  if present JIRA_BASE_URL && present JIRA_USERNAME && present JIRA_API_TOKEN
  then exists jc,
         JiraClient_init JIRA_BASE_URL JIRA_USERNAME JIRA_API_TOKEN w = (inr jc, w)
         /\ JIRA_BASE_URL = Some (jira_base_url jc)
         /\ JIRA_USERNAME = Some (username jc)
         /\ JIRA_API_TOKEN = Some (api_token jc)
  else exists ex,
         JiraClient_init JIRA_BASE_URL JIRA_USERNAME JIRA_API_TOKEN w = (inl ex, w)
         /\ exn_type ex = ValueError.
Proof.
  destruct JIRA_BASE_URL as [[|a u]|], JIRA_USERNAME as [[|b n]|],
    JIRA_API_TOKEN as [[|c k]|]; simpl;
    solve [ eexists; split; [reflexivity | reflexivity]
          | eexists; repeat split ].
Qed.

(** ** Looking a team up *)

(** X10. [get_team_by_slug] returns the first entry of the list whose
    slug is the wanted one: no entry before it has that slug.  It
    returns nothing exactly when no entry has it. *)
Theorem team_by_slug_first_match (teams : list TeamEntry) (wanted : string) :
  match get_team_by_slug teams wanted with
  | Some entry =>
      exists before after,
        teams = (before ++ entry :: after)%list
        /\ slug entry = wanted
        /\ Forall (fun t => slug t <> wanted) before
  | None => Forall (fun t => slug t <> wanted) teams
  end.
Proof.
  induction teams as [|t teams IH]; simpl; [constructor |].
  destruct (String.eqb_spec (slug t) wanted) as [Heq | Hne].
  - exists [], teams. repeat split; [assumption | constructor].
  - destruct (get_team_by_slug teams wanted) as [entry|].
    + destruct IH as (before & after & -> & Hslug & Hbefore).
      exists (t :: before), after. repeat split; [assumption |].
      now constructor.
    + now constructor.
Qed.

(** ** Repository names *)

Lemma app_cons (a : ascii) (s t : string) :
  String a s +:+ t = String a (s +:+ t).
Proof. reflexivity. Qed.

Lemma app_empty (s : string) : EmptyString +:+ s = s.
Proof. reflexivity. Qed.

Lemma has_char_app (c : ascii) (s t : string) :
  existsb (Ascii.eqb c) (list_ascii_of_string (s +:+ t))
  = existsb (Ascii.eqb c) (list_ascii_of_string s)
    || existsb (Ascii.eqb c) (list_ascii_of_string t).
Proof.
  induction s as [|a s IH]; [reflexivity |].
  rewrite app_cons. cbn [list_ascii_of_string existsb].
  now rewrite IH, orb_assoc.
Qed.

Lemma last_field_clean (c : ascii) (s : string) :
  existsb (Ascii.eqb c) (list_ascii_of_string (PyStr.last_field c s)) = false.
Proof.
  induction s as [|a s IH]; [reflexivity |].
  cbn [PyStr.last_field].
  destruct (Ascii.eqb a c) eqn:Hac; [exact IH |].
  destruct (existsb _ (list_ascii_of_string s)) eqn:Hin; [exact IH |].
  cbn [list_ascii_of_string existsb]. rewrite Hin.
  rewrite Ascii.eqb_sym in Hac. now rewrite Hac.
Qed.

Lemma last_field_suffix (c : ascii) (s : string) :
  exists p,
    s = p +:+ PyStr.last_field c s
    /\ (p = EmptyString \/ exists q, p = q +:+ String c EmptyString).
Proof.
  induction s as [|a s IH].
  - exists EmptyString. split; [reflexivity | now left].
  - destruct IH as (p & Hs & Hp). cbn [PyStr.last_field].
    destruct (Ascii.eqb a c) eqn:Hac.
    + apply Ascii.eqb_eq in Hac as ->.
      exists (String c p). split; [now rewrite app_cons, <- Hs |].
      right. destruct Hp as [-> | (q & ->)].
      * now exists EmptyString.
      * now exists (String c q).
    + destruct (existsb _ (list_ascii_of_string s)) eqn:Hin.
      * exists (String a p). split; [now rewrite app_cons, <- Hs |].
        right. destruct Hp as [-> | (q & ->)].
        -- (* nothing cut off, yet the separator occurs: impossible *)
           change (EmptyString +:+ PyStr.last_field c s)
             with (PyStr.last_field c s) in Hs.
           rewrite Hs, last_field_clean in Hin. discriminate.
        -- now exists (String a q).
      * exists EmptyString. split; [reflexivity | now left].
Qed.

Lemma last_field_trailing (c : ascii) (s : string) :
  PyStr.last_field c (s +:+ String c EmptyString) = EmptyString.
Proof.
  induction s as [|a s IH].
  - change (EmptyString +:+ String c EmptyString) with (String c EmptyString).
    cbn [PyStr.last_field]. now rewrite Ascii.eqb_refl.
  - rewrite app_cons. cbn [PyStr.last_field].
    destruct (Ascii.eqb a c); [exact IH |].
    rewrite has_char_app. cbn [list_ascii_of_string existsb].
    rewrite Ascii.eqb_refl, orb_true_r. exact IH.
Qed.

(** X11. The repository name taken from a project URL is the text after
    the last slash: it holds no slash, the URL is some prefix followed
    by it, and that prefix is empty or ends with a slash.  A URL that
    ends with a slash gives the empty name. *)
Theorem repo_name_after_last_slash (project : Project) :
  existsb (Ascii.eqb "/") (list_ascii_of_string (repo_name_of project)) = false
  /\ (exists p,
        project_url project = p +:+ repo_name_of project
        /\ (p = EmptyString \/ exists q, p = q +:+ "/"))
  /\ (forall u, project_url project = u +:+ "/" ->
                repo_name_of project = EmptyString).
Proof.
  unfold repo_name_of. split; [apply last_field_clean |].
  split; [apply last_field_suffix |].
  intros u ->. apply last_field_trailing.
Qed.

(** ** Cache keys do not collide *)

Lemma length_app (s t : string) :
  String.length (s +:+ t) = String.length s + String.length t.
Proof.
  induction s as [|a s IH]; [reflexivity |].
  rewrite app_cons. simpl. now rewrite IH.
Qed.

Lemma app_prefix_inj (s1 s2 t1 t2 : string) :
  String.length s1 = String.length s2 ->
  s1 +:+ t1 = s2 +:+ t2 -> s1 = s2 /\ t1 = t2.
Proof.
  revert s2. induction s1 as [|a s1 IH]; intros [|b s2]; simpl;
    try discriminate.
  - intros _ Heq. split; [reflexivity | exact Heq].
  - intros [= Hlen]. rewrite !app_cons. intros [= -> Heq].
    destruct (IH _ Hlen Heq) as [-> ->]. auto.
Qed.

Lemma app_suffix_inj (s1 s2 t1 t2 : string) :
  String.length t1 = String.length t2 ->
  s1 +:+ t1 = s2 +:+ t2 -> s1 = s2 /\ t1 = t2.
Proof.
  intros Hlen Heq. apply app_prefix_inj; [| exact Heq].
  apply (f_equal String.length) in Heq. rewrite !length_app in Heq. lia.
Qed.

(** Four digits for the years up to 9999, read back as the year. *)
Lemma zfill4_digits (n : nat) :
  n < 100 * 100 ->
  String.length (PyStr.zfill 4 n) = 4 /\ digits (PyStr.zfill 4 n) = Some n.
Proof.
  intros Hn.
  assert (Hall : forallb
                   (fun k => Nat.eqb (String.length (PyStr.zfill 4 k)) 4
                             && bool_decide (digits (PyStr.zfill 4 k) = Some k))
                   (seq 0 (100 * 100)) = true) by (vm_compute; reflexivity).
  rewrite forallb_forall in Hall.
  specialize (Hall n). rewrite in_seq, andb_true_iff in Hall.
  destruct Hall as [Hlen Hdig]; [lia |].
  apply Nat.eqb_eq in Hlen. apply bool_decide_eq_true in Hdig. auto.
Qed.

(** Two digits for months and days, read back as the number. *)
Lemma zfill2_digits (n : nat) :
  n < 100 ->
  String.length (PyStr.zfill 2 n) = 2 /\ digits (PyStr.zfill 2 n) = Some n.
Proof.
  intros Hn.
  assert (Hall : forallb
                   (fun k => Nat.eqb (String.length (PyStr.zfill 2 k)) 2
                             && bool_decide (digits (PyStr.zfill 2 k) = Some k))
                   (seq 0 100) = true) by (vm_compute; reflexivity).
  rewrite forallb_forall in Hall.
  specialize (Hall n). rewrite in_seq, andb_true_iff in Hall.
  destruct Hall as [Hlen Hdig]; [lia |].
  apply Nat.eqb_eq in Hlen. apply bool_decide_eq_true in Hdig. auto.
Qed.

Lemma strftime_Ymd_length (d : datetime) :
  valid_date d -> String.length (strftime_Ymd d) = 8.
Proof.
  intros (Hy & Hm & Hd). unfold strftime_Ymd. rewrite !length_app.
  destruct (zfill4_digits (year d)) as [-> _]; [lia |].
  destruct (zfill2_digits (month d)) as [-> _]; [lia |].
  destruct (zfill2_digits (day d)) as [-> _]; [lia |]. reflexivity.
Qed.

Lemma strftime_Ymd_inj (a b : datetime) :
  valid_date a -> valid_date b ->
  strftime_Ymd a = strftime_Ymd b -> date a = date b.
Proof.
  intros (Hya & Hma & Hda) (Hyb & Hmb & Hdb). unfold strftime_Ymd, date.
  destruct (zfill4_digits (year a)) as [Lya Dya]; [lia |].
  destruct (zfill4_digits (year b)) as [Lyb Dyb]; [lia |].
  destruct (zfill2_digits (month a)) as [Lma Dma]; [lia |].
  destruct (zfill2_digits (month b)) as [Lmb Dmb]; [lia |].
  destruct (zfill2_digits (day a)) as [_ Dda]; [lia |].
  destruct (zfill2_digits (day b)) as [_ Ddb]; [lia |].
  intros Heq.
  apply app_prefix_inj in Heq as [Hy Heq]; [| congruence].
  apply app_prefix_inj in Heq as [Hm Hd]; [| congruence].
  rewrite Hy in Dya. rewrite Hm in Dma. rewrite Hd in Dda.
  congruence.
Qed.

(** X12. For dates within the bounds of [datetime], two cache keys are
    equal exactly when the repository names are equal and the two ranges
    start on the same day and end on the same day: different
    repositories, or ranges over different days, never share an entry. *)
Theorem cache_key_injective (r1 r2 : string) (s1 e1 s2 e2 : datetime) :
  valid_date s1 -> valid_date e1 -> valid_date s2 -> valid_date e2 ->
  _get_cache_key r1 s1 e1 = _get_cache_key r2 s2 e2
  <-> r1 = r2 /\ date s1 = date s2 /\ date e1 = date e2.
Proof.
  intros Vs1 Ve1 Vs2 Ve2. split.
  - unfold _get_cache_key. intros Heq.
    apply app_suffix_inj in Heq as [Hr Heq].
    2:{ rewrite !length_app. simpl.
        now rewrite !strftime_Ymd_length. }
    rewrite !app_cons, !app_empty in Heq. injection Heq as Heq.
    apply app_prefix_inj in Heq as [Hs Heq];
      [| now rewrite !strftime_Ymd_length].
    rewrite ?app_cons, ?app_empty in Heq. injection Heq as He.
    split; [exact Hr |]. split; now apply strftime_Ymd_inj.
  - intros (-> & Hs & He). unfold date in Hs, He.
    injection Hs as ? ? ?. injection He as ? ? ?.
    unfold _get_cache_key, strftime_Ymd. congruence.
Qed.

(** ** What a computation sends, and what it keeps in the cache *)

Lemma asks_ret {A} (P : request -> Prop) (a : A) : asks P (ret a).
Proof. intros w. exists []. simpl. now rewrite app_nil_r. Qed.

Lemma asks_raise {A} (P : request -> Prop) (ex : exn) : asks P (@raise A ex).
Proof. intros w. exists []. simpl. now rewrite app_nil_r. Qed.

Lemma asks_print (P : request -> Prop) (line : string) : asks P (print line).
Proof. intros w. exists []. simpl. now rewrite app_nil_r. Qed.

Lemma asks_debug_print (P : request -> Prop) (message : string) (verbose : bool) :
  asks P (debug_print message verbose).
Proof. destruct verbose; [apply asks_print | apply asks_ret]. Qed.

Lemma asks_bind {A B} (P : request -> Prop) (m : M A) (k : A -> M B) :
  asks P m -> (forall a, asks P (k a)) -> asks P (bind m k).
Proof.
  intros Hm Hk w. unfold bind.
  destruct (Hm w) as (x1 & Hx1 & HP1).
  destruct (m w) as [[ex|a] w1]; simpl in *; [eauto |].
  destruct (Hk a w1) as (x2 & Hx2 & HP2).
  exists (x1 ++ x2)%list. rewrite Hx2, Hx1, app_assoc.
  split; [reflexivity | now apply Forall_app].
Qed.

Lemma asks_try {A} (P : request -> Prop) (m : M A) (h : exn -> M A) :
  asks P m -> (forall ex, asks P (h ex)) -> asks P (try_except m h).
Proof.
  intros Hm Hh w. unfold try_except.
  destruct (Hm w) as (x1 & Hx1 & HP1).
  destruct (m w) as [[ex|a] w1]; simpl in *; [| eauto].
  destruct (Hh ex w1) as (x2 & Hx2 & HP2).
  exists (x1 ++ x2)%list. rewrite Hx2, Hx1, app_assoc.
  split; [reflexivity | now apply Forall_app].
Qed.

Lemma asks_for_each {X Acc} (P : request -> Prop) (body : Acc -> X -> M Acc)
    (xs : list X) :
  (forall acc x, In x xs -> asks P (body acc x)) ->
  forall acc, asks P (for_each body xs acc).
Proof.
  induction xs as [|x xs IH]; intros Hbody acc; simpl.
  - apply asks_ret.
  - apply asks_bind; [apply Hbody; now left |].
    intros acc'. apply IH. intros ? ? ?. apply Hbody. now right.
Qed.

Lemma asks_weaken {A} (P Q : request -> Prop) (m : M A) :
  (forall r, P r -> Q r) -> asks P m -> asks Q m.
Proof.
  intros HPQ Hm w. destruct (Hm w) as (x & Hx & HP).
  exists x. split; [assumption |]. eapply Forall_impl; eauto.
Qed.

(** A computation that sends nothing a request could be. *)
Lemma asks_nothing {A} (m : M A) (w : world) :
  asks (fun _ => False) m -> sent (m w).2 = sent w.
Proof.
  intros Hm. destruct (Hm w) as ([|r x] & Hx & HP).
  - now rewrite app_nil_r in Hx.
  - now inversion HP.
Qed.

Lemma get_all_asks (self : GitHubClient) (repo_name : string) (s e : datetime)
    (verbose : bool) :
  asks (fun r => r = pulls_request self repo_name)
    (get_all_pull_requests self repo_name s e verbose).
Proof.
  intros w. rewrite get_all_sent.
  destruct (_cache w !! _) as [cached|].
  - exists []. now rewrite app_nil_r.
  - exists [pulls_request self repo_name]. auto.
Qed.

Lemma get_user_asks (self : GitHubClient) (repo_name user : string)
    (s e : datetime) (verbose : bool) :
  asks (fun r => r = pulls_request self repo_name)
    (get_user_pull_requests self repo_name user s e verbose).
Proof.
  unfold get_user_pull_requests. apply asks_bind; [apply get_all_asks |].
  intros all_prs. apply asks_ret.
Qed.

Lemma keeps_ret {A} (a : A) : keeps_entries (ret a).
Proof. now intros w k v. Qed.

Lemma keeps_print (line : string) : keeps_entries (print line).
Proof. now intros w k v. Qed.

Lemma keeps_debug_print (message : string) (verbose : bool) :
  keeps_entries (debug_print message verbose).
Proof. destruct verbose; [apply keeps_print | apply keeps_ret]. Qed.

Lemma keeps_bind {A B} (m : M A) (k : A -> M B) :
  keeps_entries m -> (forall a, keeps_entries (k a)) -> keeps_entries (bind m k).
Proof.
  intros Hm Hk w key v Hv. unfold bind.
  specialize (Hm w key v Hv).
  destruct (m w) as [[ex|a] w1]; simpl in *; [assumption |].
  now apply Hk.
Qed.

Lemma keeps_try {A} (m : M A) (h : exn -> M A) :
  keeps_entries m -> (forall ex, keeps_entries (h ex)) ->
  keeps_entries (try_except m h).
Proof.
  intros Hm Hh w key v Hv. unfold try_except.
  specialize (Hm w key v Hv).
  destruct (m w) as [[ex|a] w1]; simpl in *; [| assumption].
  now apply Hh.
Qed.

Lemma keeps_for_each {X Acc} (body : Acc -> X -> M Acc) (xs : list X) :
  (forall acc x, keeps_entries (body acc x)) ->
  forall acc, keeps_entries (for_each body xs acc).
Proof.
  intros Hbody. induction xs as [|x xs IH]; intros acc; simpl.
  - apply keeps_ret.
  - apply keeps_bind; [apply Hbody | apply IH].
Qed.

(** A fetch never drops or changes an entry that was there. *)
Lemma get_all_keeps (self : GitHubClient) (repo_name : string) (s e : datetime)
    (verbose : bool) :
  keeps_entries (get_all_pull_requests self repo_name s e verbose).
Proof.
  intros w k v Hv.
  destruct (_cache w !! _get_cache_key repo_name s e) as [cached|] eqn:Hc.
  - erewrite get_all_hit by eassumption. simpl. now rewrite say_cache.
  - destruct (get_all_pull_requests self repo_name s e verbose w)
      as [[ex|rs] w'] eqn:Hrun; simpl.
    + apply get_all_raise_world in Hrun as [_ ->].
      destruct (requested_parts self repo_name verbose w) as (-> & _).
      exact Hv.
    + apply get_all_return_world in Hrun as ->; [| assumption].
      rewrite saved_cache. simpl. rewrite lookup_insert_ne; [exact Hv |].
      intros <-. congruence.
Qed.

(** ** Pre-loading *)

(** One round of the pre-loading loop, by what the fetch came to. *)
Lemma preload_repo_step (gh : GitHubClient) (s e : datetime) (verbose : bool)
    (project : Project) (w : world) :
  preload_repo gh s e verbose tt project w
  = match get_all_pull_requests gh (repo_name_of project) s e verbose
            (say verbose
               (debug_note ("Caching PRs for repository: "
                              +:+ repo_name_of project)) w) with
    | (inr _, w1) => (inr tt, w1)
    | (inl ex, w1) =>
        (inr tt,
         write_line (cache_warning (repo_name_of project) ex)
           (say verbose
              (debug_note ("Error caching " +:+ repo_name_of project +:+ ": "
                             +:+ exn_str ex)) w1))
    end.
Proof.
  unfold preload_repo, try_except, bind, debug_print.
  rewrite when_print. simpl.
  destruct (get_all_pull_requests _ _ _ _ _ _) as [[ex|rs] w1]; simpl;
    [now rewrite when_print | reflexivity].
Qed.

Lemma preload_loop (gh : GitHubClient) (s e : datetime) (verbose : bool)
    (ps : list Project) :
  forall w,
  exists w' extra,
    for_each (preload_repo gh s e verbose) ps tt w = (inr tt, w')
    /\ stdout w' = (stdout w ++ extra)%list
    /\ (forall k v, _cache w !! k = Some v -> _cache w' !! k = Some v)
    /\ (forall p, In p ps ->
          is_Some (_cache w' !! _get_cache_key (repo_name_of p) s e)
          \/ exists ex, In (cache_warning (repo_name_of p) ex) extra).
Proof.
  induction ps as [|p ps IH]; intros w.
  - exists w, []. simpl. rewrite app_nil_r. repeat split; auto.
    intros p [].
  - cbn [for_each]. unfold bind. rewrite preload_repo_step.
    set (w0 := say verbose _ w).
    assert (Hout0 : exists d0, stdout w0 = (stdout w ++ d0)%list).
    { subst w0. rewrite say_stdout. eauto. }
    assert (Hc0 : _cache w0 = _cache w) by (subst w0; apply say_cache).
    destruct Hout0 as (d0 & Hout0).
    destruct (get_all_emits gh (repo_name_of p) s e verbose w0)
      as (d1 & Hout1 & _).
    pose proof (get_all_keeps gh (repo_name_of p) s e verbose w0) as Hkeep.
    destruct (get_all_pull_requests gh (repo_name_of p) s e verbose w0)
      as [[ex|rs] w1] eqn:Hrun; cbn [fst snd] in *.
    + match goal with |- context [for_each _ ps tt ?w2] =>
        destruct (IH w2) as (w' & x2 & Hloop & Hout2 & Hkeep2 & Hall) end.
      exists w'. eexists. split; [exact Hloop |]. split; [| split].
      * rewrite Hout2. cbn [stdout write_line]. rewrite say_stdout, Hout1, Hout0.
        rewrite <- !app_assoc. reflexivity.
      * intros k v Hv. apply Hkeep2. cbn [_cache write_line].
        rewrite say_cache. apply Hkeep. now rewrite Hc0.
      * intros q [<- | Hq].
        -- right. exists ex. rewrite !in_app_iff. right. right. right. left.
           now left.
        -- destruct (Hall q Hq) as [? | (ex' & Hin)]; [now left |].
           right. exists ex'. rewrite !in_app_iff. auto.
    + destruct (IH w1) as (w' & x2 & Hloop & Hout2 & Hkeep2 & Hall).
      exists w'. eexists. split; [exact Hloop |]. split; [| split].
      * rewrite Hout2, Hout1, Hout0. rewrite <- !app_assoc. reflexivity.
      * intros k v Hv. apply Hkeep2, Hkeep. now rewrite Hc0.
      * intros q [<- | Hq].
        -- left. eexists. apply Hkeep2. eapply get_all_cached. eassumption.
        -- destruct (Hall q Hq) as [? | (ex' & Hin)]; [now left |].
           right. exists ex'. rewrite !in_app_iff. auto.
Qed.

(** X13. The pre-loading loop never raises and never drops an entry of
    the cache.  When it ends, every repository of the team either has
    its records in the cache under the key of the range, or has had a
    warning naming it printed. *)
Theorem preload_warms_or_warns (gh : GitHubClient) (s e : datetime)
    (verbose : bool) (team : Team) (w : world) :
  exists w',
    preload gh s e verbose team w = (inr tt, w')
    /\ (forall k v, _cache w !! k = Some v -> _cache w' !! k = Some v)
    /\ (forall p, In p (projects team) ->
          is_Some (_cache w' !! _get_cache_key (repo_name_of p) s e)
          \/ exists ex,
               In (cache_warning (repo_name_of p) ex) (printed_since w w')).
Proof.
  destruct (preload_loop gh s e verbose (projects team) w)
    as (w' & extra & Hrun & Hout & Hkeep & Hall).
  exists w'. split; [exact Hrun |]. split; [exact Hkeep |].
  now rewrite (printed_since_app _ _ _ Hout).
Qed.

(** ** A member's pulls from a warm cache *)

Lemma at_fetch_parts (user : string) (verbose : bool) (n : nat)
    (jp : nat * Project) (w : world) :
  _cache (at_fetch user verbose n jp w) = _cache w
  /\ sent (at_fetch user verbose n jp w) = sent w.
Proof.
  unfold at_fetch, bind, debug_print. rewrite when_print. simpl.
  rewrite when_print. simpl. now rewrite !say_cache, !say_sent.
Qed.

Lemma flat_map_snd {X Y Z} (f : Y -> list Z) (l : list (X * Y)) :
  flat_map (fun xy => f xy.2) l = flat_map f (map snd l).
Proof. induction l as [|xy l IH]; simpl; [reflexivity | now rewrite IH]. Qed.

Lemma warm_collect_loop (gh : GitHubClient) (user : string) (s e : datetime)
    (verbose : bool) (n : nat) (jps : list (nat * Project)) :
  forall acc w,
    (forall jp, In jp jps ->
       is_Some (_cache w !! _get_cache_key (repo_name_of jp.2) s e)) ->
    exists w' extra,
      for_each (fetch_repo gh user s e verbose n) jps acc w
      = (inr (acc ++ flat_map
                       (fun jp =>
                          List.filter (fun pr => String.eqb (author pr) user)
                            (cached_for (repo_name_of jp.2) s e w))
                       jps)%list, w')
      /\ sent w' = sent w
      /\ _cache w' = _cache w
      /\ stdout w' = (stdout w ++ extra)%list
      /\ Forall plain extra.
Proof.
  induction jps as [|jp jps IH]; intros acc w Hwarm.
  - exists w, []. simpl. rewrite !app_nil_r. auto.
  - cbn [for_each flat_map]. unfold bind. rewrite fetch_repo_step.
    destruct (Hwarm jp) as [cached Hc]; [now left |].
    destruct (at_fetch_parts user verbose n jp w) as [Hc0 Hs0].
    destruct (at_fetch_stdout user verbose n jp w) as (d0 & Hd0 & Pd0).
    unfold get_user_pull_requests, bind.
    rewrite (get_all_hit gh (repo_name_of jp.2) s e verbose
               (at_fetch user verbose n jp w) cached) by now rewrite Hc0.
    cbn [ret].
    match goal with |- context [for_each _ jps ?acc2 ?w2] =>
      destruct (IH acc2 w2) as (w' & extra & Hrun & Hsent & Hcache & Hout & Hplain)
    end.
    { intros jp' Hin. rewrite !say_cache, Hc0. apply Hwarm. now right. }
    rewrite !say_cache, Hc0 in Hcache. rewrite !say_sent, Hs0 in Hsent.
    exists w'. eexists. split; [| split; [exact Hsent | split; [exact Hcache |]]].
    + assert (Hhead : cached_for (repo_name_of jp.2) s e w = cached)
        by (unfold cached_for; now rewrite Hc).
      rewrite Hrun, Hhead, <- app_assoc. do 4 f_equal.
      apply flat_map_ext. intros jp'. unfold cached_for.
      now rewrite !say_cache, Hc0.
    + split.
      * rewrite Hout, !say_stdout, Hd0. rewrite <- !app_assoc. reflexivity.
      * repeat (apply Forall_app; split); try assumption;
          destruct verbose; repeat constructor;
            first [apply plain_cache_note | apply plain_debug_note].
Qed.

(** X14. When every repository of the team has an entry in the cache for
    the range, collecting a member's pulls sends no request, changes no
    entry and reports no error: it returns, repository by repository in
    order, the cached records whose author is the member's handle. *)
Theorem warm_cache_needs_no_request (gh : GitHubClient) (user : string)
    (s e : datetime) (verbose : bool) (team : Team) (w : world) :
  (forall p, In p (projects team) ->
     is_Some (_cache w !! _get_cache_key (repo_name_of p) s e)) ->
  exists w',
    collect_prs gh user s e verbose team w
    = (inr (flat_map
              (fun p => List.filter (fun pr => String.eqb (author pr) user)
                          (cached_for (repo_name_of p) s e w))
              (projects team)), w')
    /\ sent w' = sent w
    /\ _cache w' = _cache w
    /\ List.filter is_repo_error (printed_since w w') = [].
Proof.
  intros Hwarm.
  destruct (warm_collect_loop gh user s e verbose (length (projects team))
              (enumerate1 (projects team)) [] w)
    as (w' & extra & Hrun & Hsent & Hcache & Hout & Hplain).
  { intros jp Hin. apply Hwarm.
    rewrite <- (enumerate1_members (projects team)). now apply in_map. }
  exists w'. split; [| split; [exact Hsent | split; [exact Hcache |]]].
  - unfold collect_prs. rewrite Hrun. cbn [app].
    rewrite (flat_map_snd
               (fun p => List.filter (fun pr => String.eqb (author pr) user)
                           (cached_for (repo_name_of p) s e w))).
    now rewrite enumerate1_members.
  - rewrite (printed_since_app _ _ _ Hout). now apply filter_plain_errors.
Qed.

(** ** The whole run *)

Lemma JiraClient_init_ok (u n k : option string) :
  present u && present n && present k = true ->
  exists jc, forall w, JiraClient_init u n k w = (inr jc, w).
Proof.
  destruct u as [[|a u]|], n as [[|b n]|], k as [[|c k]|]; try discriminate.
  intros _. eexists. intros w. reflexivity.
Qed.

Lemma JiraClient_init_missing (u n k : option string) (w : world) :
  present u && present n && present k = false ->
  JiraClient_init u n k w
  = (inl (Raised ValueError
            "Missing Jira credentials. Set JIRA_BASE_URL, JIRA_USERNAME, and JIRA_API_TOKEN"),
     w).
Proof.
  destruct u as [[|a u]|], n as [[|b n]|], k as [[|c k]|]; try discriminate;
    reflexivity.
Qed.

Lemma GitHubClient_init_missing (t : option string) (w : world) :
  present t = false ->
  GitHubClient_init t w
  = (inl (Raised ValueError "GITHUB_TOKEN environment variable is required"), w).
Proof. destruct t as [[|a t]|]; try discriminate; reflexivity. Qed.

Lemma _load_cache_never_raises : never_raises _load_cache.
Proof.
  unfold _load_cache. apply never_raises_try. intros ex. apply never_raises_ret.
Qed.

Lemma GitHubClient_init_ok (t : option string) :
  present t = true -> never_raises (GitHubClient_init t).
Proof.
  destruct t as [[|a t]|]; try discriminate. intros _.
  unfold GitHubClient_init.
  apply never_raises_bind; [apply _load_cache_never_raises | intros c].
  apply never_raises_bind; [| intros _; apply never_raises_ret].
  intros w. now exists tt, (set_cache c w).
Qed.

Lemma preload_repo_never_raises (gh : GitHubClient) (s e : datetime)
    (verbose : bool) (acc : unit) (project : Project) :
  never_raises (preload_repo gh s e verbose acc project).
Proof.
  unfold preload_repo. apply never_raises_try. intros ex.
  apply never_raises_bind; [apply never_raises_debug_print | intros _].
  apply never_raises_print.
Qed.

Lemma process_members_never_raises (jc : JiraClient) (gh : GitHubClient)
    (s e : datetime) (verbose only_title : bool) (team : Team) :
  never_raises (process_members jc gh s e verbose only_title team).
Proof.
  intros w.
  destruct (process_loop jc gh s e verbose only_title team
              (enumerate1 (members team)) w) as (w' & _ & Hrun & _).
  now exists tt, w'.
Qed.

(** The world [main] is in when it builds the first client. *)
Lemma main_prelude (team : Team) (s e : datetime) (verbose only_title : bool)
    (u n k t : option string) (w : world) :
  exists w0,
    sent w0 = sent w /\ _cache w0 = _cache w /\ cache_file w0 = cache_file w
    /\ main team s e verbose only_title u n k t w
       = (jira_client <- JiraClient_init u n k ;;
          debug_print "Initializing GitHub client..." verbose ;;;
          github_client <- GitHubClient_init t ;;
          debug_print "Pre-loading GitHub cache for all repositories..." verbose ;;;
          for_each (preload_repo github_client s e verbose) (projects team) tt ;;;
          debug_print "Cache pre-loading completed!" verbose ;;;
          debug_print ("Starting to process "
                         +:+ PyStr.of_nat (length (members team))
                         +:+ " team members...") verbose ;;;
          process_members jira_client github_client s e verbose only_title team)
           w0.
Proof.
  unfold main. unfold bind at 1 2 3 4, debug_print at 1 2.
  rewrite when_print. cbn [print modify]. rewrite when_print.
  eexists. split; [| split; [| split; [| reflexivity]]];
    destruct verbose; reflexivity.
Qed.

(** X15. Missing credentials are the only thing that stops [main].  When
    the three issue-tracker values and the code-hosting token are all
    there and not empty, [main] ends without raising, whatever the
    remote services and the cache file do.  When one is missing or
    empty, [main] raises a [ValueError] before it has sent any request
    or touched the cache or its file. *)
Theorem main_stops_only_for_credentials (team : Team) (s e : datetime)
    (verbose only_title : bool)
    (JIRA_BASE_URL JIRA_USERNAME JIRA_API_TOKEN GITHUB_TOKEN : option string)
    (w : world) :
  let run := main team s e verbose only_title JIRA_BASE_URL JIRA_USERNAME
               JIRA_API_TOKEN GITHUB_TOKEN w in
  if present JIRA_BASE_URL && present JIRA_USERNAME && present JIRA_API_TOKEN
     && present GITHUB_TOKEN
  then run.1 = inr tt
  else (exists ex, run.1 = inl ex /\ exn_type ex = ValueError)
       /\ sent run.2 = sent w
       /\ _cache run.2 = _cache w
       /\ cache_file run.2 = cache_file w.
Proof.
  intros run. subst run.
  destruct (main_prelude team s e verbose only_title JIRA_BASE_URL JIRA_USERNAME
              JIRA_API_TOKEN GITHUB_TOKEN w) as (w0 & Hs0 & Hc0 & Hf0 & ->).
  match goal with |- context [(?m w0).1] => set (body := m) end.
  destruct (present JIRA_BASE_URL && present JIRA_USERNAME
            && present JIRA_API_TOKEN) eqn:Hjira; cbn [andb].
  - destruct (JiraClient_init_ok _ _ _ Hjira) as (jc & Hjc).
    destruct (present GITHUB_TOKEN) eqn:Hgh.
    + subst body. unfold bind at 1. rewrite Hjc.
      unfold bind at 1, debug_print at 1. rewrite when_print.
      match goal with |- (?m ?w1).1 = _ =>
        assert (Hnr : never_raises m) end.
      { apply never_raises_bind; [now apply GitHubClient_init_ok | intros gh].
        apply never_raises_bind; [apply never_raises_debug_print | intros _].
        apply never_raises_bind.
        { apply never_raises_for_each. intros acc p.
          apply preload_repo_never_raises. }
        intros _.
        do 2 (apply never_raises_bind; [apply never_raises_debug_print | intros _]).
        apply process_members_never_raises. }
      match goal with |- (?m ?w1).1 = _ =>
        destruct (Hnr w1) as ([] & w' & ->) end.
      reflexivity.
    + assert (Hrun : body w0
                     = (inl (Raised ValueError
                               "GITHUB_TOKEN environment variable is required"),
                        say verbose (debug_note "Initializing GitHub client...")
                          w0)).
      { subst body. unfold bind at 1. rewrite Hjc.
        unfold bind at 1, debug_print at 1. rewrite when_print.
        unfold bind at 1. now rewrite GitHubClient_init_missing. }
      rewrite Hrun. cbn [fst snd]. rewrite say_sent, say_cache.
      split; [eexists; split; reflexivity |].
      repeat split; try assumption.
      rewrite <- Hf0. now destruct verbose.
  - assert (Hrun : body w0
                   = (inl (Raised ValueError
                             "Missing Jira credentials. Set JIRA_BASE_URL, JIRA_USERNAME, and JIRA_API_TOKEN"),
                      w0)).
    { subst body. unfold bind at 1. now rewrite JiraClient_init_missing. }
    rewrite Hrun. cbn [fst snd].
    split; [eexists; split; reflexivity |]. auto.
Qed.

(** ** The requests of the member loop *)

Lemma bind_world {B} (m : M unit) (k : M B) (w : world) :
  never_raises m -> bind m (fun _ => k) w = k (m w).2.
Proof. intros Hm. unfold bind. now destruct (Hm w) as ([] & w1 & ->). Qed.

Lemma sent_debug_print (message : string) (verbose : bool) (w : world) :
  sent (debug_print message verbose w).2 = sent w.
Proof. now destruct verbose. Qed.

(** The issue-tracker part of a round sends the member's search and
    nothing else, whatever comes back. *)
Lemma jira_section_sent (jc : JiraClient) (member : Member) (s e : datetime)
    (verbose only_title : bool) (w : world) :
  sent (jira_section jc member s e verbose only_title w).2
  = (sent w ++ [member_search jc s e member])%list.
Proof.
  unfold jira_section. rewrite bind_world by apply never_raises_debug_print.
  set (w0 := (debug_print _ verbose w).2).
  assert (Hs0 : sent w0 = sent w) by apply sent_debug_print.
  unfold try_except, bind at 1.
  pose proof (get_user_activities_world jc (email member) s e verbose w0) as Hw1.
  destruct (get_user_activities jc (email member) s e verbose w0)
    as [[ex|jira_issues] w1]; cbn [snd] in Hw1; subst w1.
  - cbn [snd print modify write_line sent].
    destruct (searched_parts jc (email member) s e verbose w0) as (_ & _ & ->).
    now rewrite Hs0.
  - match goal with |- context [?m (searched jc (email member) s e verbose w0)] =>
      assert (Hquiet : asks (fun _ => False) m) end.
    { apply asks_bind; [apply asks_debug_print | intros _].
      destruct jira_issues as [|issue rest]; [apply asks_print |].
      apply asks_bind; [apply asks_print | intros _].
      apply asks_for_each. intros [] record _.
      apply asks_bind; [apply asks_print | intros _].
      destruct (_ && _); [| apply asks_ret].
      apply asks_for_each. intros [] change _. apply asks_print. }
    match goal with |- context [?m (searched jc (email member) s e verbose w0)] =>
      pose proof (asks_nothing m (searched jc (email member) s e verbose w0)
                    Hquiet) as Hsent;
      destruct (m (searched jc (email member) s e verbose w0)) as [[ex|[]] w2]
    end; cbn [snd print modify write_line sent] in *;
      rewrite Hsent;
      destruct (searched_parts jc (email member) s e verbose w0) as (_ & _ & ->);
      now rewrite Hs0.
Qed.

Lemma enumerate1_in {X} (xs : list X) (ix : nat * X) :
  In ix (enumerate1 xs) -> In ix.2 xs.
Proof.
  intros Hin. rewrite <- (enumerate1_members xs). now apply in_map.
Qed.

Lemma github_section_asks (gh : GitHubClient) (member : Member) (s e : datetime)
    (verbose : bool) (team : Team) :
  asks (team_pulls gh team) (github_section gh member s e verbose team).
Proof.
  unfold github_section.
  do 2 (apply asks_bind; [apply asks_debug_print | intros _]).
  apply asks_try.
  - apply asks_bind.
    + unfold collect_prs. apply asks_for_each. intros acc jp Hin.
      unfold fetch_repo.
      apply asks_bind; [apply asks_debug_print | intros _].
      apply asks_try.
      * apply asks_bind; [apply asks_debug_print | intros _].
        apply asks_bind.
        -- eapply asks_weaken; [| apply get_user_asks].
           intros r ->. split; [reflexivity |].
           exists jp.2. split; [now apply enumerate1_in | reflexivity].
        -- intros prs. apply asks_bind; [apply asks_debug_print | intros _].
           apply asks_ret.
      * intros ex. apply asks_bind; [apply asks_debug_print | intros _].
        apply asks_bind; [apply asks_print | intros _]. apply asks_ret.
    + intros all_prs. apply asks_bind; [apply asks_debug_print | intros _].
      destruct all_prs; [apply asks_print |].
      apply asks_bind; [apply asks_print | intros _].
      apply asks_for_each. intros [] pr _. apply asks_print.
  - intros ex. apply asks_bind; [apply asks_debug_print | intros _].
    apply asks_print.
Qed.

(** One round: the member's search first, then requests for the pulls of
    the team's repositories. *)
Lemma process_member_sent (jc : JiraClient) (gh : GitHubClient) (s e : datetime)
    (verbose only_title : bool) (team : Team) (im : nat * Member) (w : world) :
  exists extra,
    sent (process_member jc gh s e verbose only_title team tt im w).2
    = (sent w ++ member_search jc s e im.2 :: extra)%list
    /\ Forall (team_pulls gh team) extra.
Proof.
  unfold process_member.
  rewrite bind_world by apply never_raises_print.
  rewrite bind_world by apply never_raises_print.
  rewrite bind_world by apply never_raises_debug_print.
  rewrite bind_world by apply jira_section_never_raises.
  rewrite bind_world by apply github_section_never_raises.
  rewrite sent_debug_print.
  match goal with |- context [github_section gh im.2 s e verbose team ?w1] =>
    destruct (github_section_asks gh im.2 s e verbose team w1)
      as (extra & Hsent & Hpulls) end.
  exists extra. split; [| exact Hpulls].
  rewrite Hsent, jira_section_sent, sent_debug_print. cbn [print modify snd].
  cbn [sent write_line]. now rewrite <- app_assoc.
Qed.

Lemma filter_team_pulls (gh : GitHubClient) (team : Team) (rs : list request) :
  Forall (team_pulls gh team) rs -> List.filter has_auth rs = [].
Proof.
  intros Hall. apply filter_none. rewrite List.Forall_forall in Hall.
  intros r Hin. now destruct (Hall r Hin).
Qed.

Lemma process_loop_sent (jc : JiraClient) (gh : GitHubClient) (s e : datetime)
    (verbose only_title : bool) (team : Team) (ims : list (nat * Member)) :
  forall w,
  exists extra,
    sent (for_each (process_member jc gh s e verbose only_title team) ims tt w).2
    = (sent w ++ extra)%list
    /\ List.filter has_auth extra
       = map (fun im => member_search jc s e im.2) ims
    /\ Forall (team_pulls gh team)
         (List.filter (fun r => negb (has_auth r)) extra).
Proof.
  induction ims as [|im ims IH]; intros w.
  - exists []. simpl. rewrite app_nil_r. auto.
  - cbn [for_each]. unfold bind.
    destruct (process_member_run jc gh s e verbose only_title team im w)
      as (w1 & _ & Hrun & _).
    destruct (process_member_sent jc gh s e verbose only_title team im w)
      as (x1 & Hs1 & Hp1).
    rewrite Hrun in *. cbn [snd] in Hs1.
    destruct (IH w1) as (x2 & Hs2 & Hauth & Hpulls).
    exists (member_search jc s e im.2 :: x1 ++ x2)%list.
    split; [| split].
    + rewrite Hs2, Hs1, <- app_assoc. reflexivity.
    + cbn [List.filter map has_auth member_search search_request auth].
      now rewrite List.filter_app, (filter_team_pulls gh team x1), Hauth.
    + cbn [List.filter has_auth member_search search_request auth negb].
      rewrite List.filter_app. apply Forall_app. split; [| exact Hpulls].
      rewrite List.Forall_forall in *. intros r Hin.
      apply filter_In in Hin as [Hin _]. now apply Hp1.
Qed.

(** X16. The loop over the members sends exactly one issue-tracker
    search per member, in the order of the members, whatever the
    searches return; every other request it sends asks for the pulls of
    one of the team's repositories. *)
Theorem one_search_per_member (jc : JiraClient) (gh : GitHubClient)
    (s e : datetime) (verbose only_title : bool) (team : Team) (w : world) :
  let w' := (process_members jc gh s e verbose only_title team w).2 in
  List.filter has_auth (sent_since w w')
  = map (member_search jc s e) (members team)
  /\ Forall (team_pulls gh team)
       (List.filter (fun r => negb (has_auth r)) (sent_since w w')).
Proof.
  intros w'. subst w'. unfold process_members.
  destruct (process_loop_sent jc gh s e verbose only_title team
              (enumerate1 (members team)) w) as (extra & Hsent & Hauth & Hpulls).
  unfold sent_since. rewrite Hsent, drop_app_length.
  split; [| exact Hpulls].
  rewrite Hauth. rewrite <- (enumerate1_members (members team)) at 2.
  now rewrite map_map.
Qed.

(** ** A run on a warm cache *)

Lemma keeps_get_user_activities (jc : JiraClient) (email : string)
    (s e : datetime) (verbose : bool) :
  keeps_entries (get_user_activities jc email s e verbose).
Proof.
  intros w k v Hv. rewrite get_user_activities_world.
  now destruct (searched_parts jc email s e verbose w) as (-> & _).
Qed.

Lemma keeps_jira_section (jc : JiraClient) (member : Member) (s e : datetime)
    (verbose only_title : bool) :
  keeps_entries (jira_section jc member s e verbose only_title).
Proof.
  unfold jira_section.
  apply keeps_bind; [apply keeps_debug_print | intros _].
  apply keeps_try; [| intros ex; apply keeps_print].
  apply keeps_bind; [apply keeps_get_user_activities | intros jira_issues].
  apply keeps_bind; [apply keeps_debug_print | intros _].
  destruct jira_issues as [|issue rest]; [apply keeps_print |].
  apply keeps_bind; [apply keeps_print | intros _].
  apply keeps_for_each. intros [] record.
  apply keeps_bind; [apply keeps_print | intros _].
  destruct (_ && _); [| apply keeps_ret].
  apply keeps_for_each. intros [] change. apply keeps_print.
Qed.

Lemma keeps_github_section (gh : GitHubClient) (member : Member) (s e : datetime)
    (verbose : bool) (team : Team) :
  keeps_entries (github_section gh member s e verbose team).
Proof.
  unfold github_section.
  do 2 (apply keeps_bind; [apply keeps_debug_print | intros _]).
  apply keeps_try.
  - apply keeps_bind.
    + unfold collect_prs. apply keeps_for_each. intros acc jp. unfold fetch_repo.
      apply keeps_bind; [apply keeps_debug_print | intros _].
      apply keeps_try.
      * apply keeps_bind; [apply keeps_debug_print | intros _].
        apply keeps_bind.
        -- unfold get_user_pull_requests.
           apply keeps_bind; [apply get_all_keeps | intros ?; apply keeps_ret].
        -- intros prs. apply keeps_bind; [apply keeps_debug_print | intros _].
           apply keeps_ret.
      * intros ex. apply keeps_bind; [apply keeps_debug_print | intros _].
        apply keeps_bind; [apply keeps_print | intros _]. apply keeps_ret.
    + intros all_prs. apply keeps_bind; [apply keeps_debug_print | intros _].
      destruct all_prs; [apply keeps_print |].
      apply keeps_bind; [apply keeps_print | intros _].
      apply keeps_for_each. intros [] pr. apply keeps_print.
  - intros ex. apply keeps_bind; [apply keeps_debug_print | intros _].
    apply keeps_print.
Qed.

(** On a warm cache the code-hosting part of a round sends nothing. *)
Lemma warm_github_section_sent (gh : GitHubClient) (member : Member)
    (s e : datetime) (verbose : bool) (team : Team) (w : world) :
  (forall p, In p (projects team) ->
     is_Some (_cache w !! _get_cache_key (repo_name_of p) s e)) ->
  sent (github_section gh member s e verbose team w).2 = sent w.
Proof.
  intros Hwarm. unfold github_section.
  rewrite !bind_world by apply never_raises_debug_print.
  set (w0 := (debug_print _ verbose (debug_print _ verbose w).2).2).
  assert (Hs0 : sent w0 = sent w).
  { subst w0. now rewrite !sent_debug_print. }
  assert (Hc0 : _cache w0 = _cache w).
  { subst w0. now destruct verbose. }
  destruct (warm_collect_loop gh (github_user member) s e verbose
              (length (projects team)) (enumerate1 (projects team)) [] w0)
    as (w1 & _ & Hrun & Hs1 & _).
  { intros jp Hin. rewrite Hc0. apply Hwarm. now apply enumerate1_in. }
  unfold try_except, bind at 1. unfold collect_prs. rewrite Hrun.
  match goal with |- context [?m w1] =>
    match m with
    | bind _ _ => assert (Hquiet : asks (fun _ => False) m)
    end end.
  { apply asks_bind; [apply asks_debug_print | intros _].
    match goal with |- context [match ?l with [] => _ | _ :: _ => _ end] =>
      destruct l end; [apply asks_print |].
    apply asks_bind; [apply asks_print | intros _].
    apply asks_for_each. intros [] pr _. apply asks_print. }
  match goal with |- context [?m w1] =>
    match m with
    | bind _ _ =>
        pose proof (asks_nothing m w1 Hquiet) as Hsent;
        destruct (m w1) as [[ex|[]] w2]
    end end; cbn [snd] in *.
  - rewrite bind_world by apply never_raises_debug_print.
    cbn [print modify snd sent write_line]. rewrite sent_debug_print. congruence.
  - congruence.
Qed.

Lemma warm_process_loop (jc : JiraClient) (gh : GitHubClient) (s e : datetime)
    (verbose only_title : bool) (team : Team) (ims : list (nat * Member)) :
  forall w,
    (forall p, In p (projects team) ->
       is_Some (_cache w !! _get_cache_key (repo_name_of p) s e)) ->
    sent (for_each (process_member jc gh s e verbose only_title team) ims tt w).2
    = (sent w ++ map (fun im => member_search jc s e im.2) ims)%list.
Proof.
  induction ims as [|im ims IH]; intros w Hwarm.
  - simpl. now rewrite app_nil_r.
  - cbn [for_each map]. unfold bind.
    destruct (process_member_run jc gh s e verbose only_title team im w)
      as (w1 & _ & Hrun & _).
    assert (Hround :
              sent (process_member jc gh s e verbose only_title team tt im w).2
              = (sent w ++ [member_search jc s e im.2])%list
              /\ forall k v, _cache w !! k = Some v ->
                   _cache (process_member jc gh s e verbose only_title team tt im
                             w).2 !! k = Some v).
    { unfold process_member.
      rewrite bind_world by apply never_raises_print.
      rewrite bind_world by apply never_raises_print.
      rewrite bind_world by apply never_raises_debug_print.
      rewrite bind_world by apply jira_section_never_raises.
      rewrite bind_world by apply github_section_never_raises.
      set (w_a := (debug_print _ verbose (print _ (print _ w).2).2).2).
      assert (Hca : _cache w_a = _cache w) by (subst w_a; now destruct verbose).
      assert (Hsa : sent w_a = sent w) by (subst w_a; now destruct verbose).
      set (w_b := (jira_section jc im.2 s e verbose only_title w_a).2).
      assert (Hkb : forall k v, _cache w !! k = Some v -> _cache w_b !! k = Some v).
      { intros k v Hv. subst w_b. apply keeps_jira_section. now rewrite Hca. }
      split.
      - rewrite sent_debug_print, warm_github_section_sent.
        + subst w_b. now rewrite jira_section_sent, Hsa.
        + intros p Hp. destruct (Hwarm p Hp) as [v Hv]. exists v. now apply Hkb.
      - intros k v Hv. rewrite <- (Hkb k v Hv).
        match goal with |- _cache (debug_print ?m ?b ?x).2 !! _ = _ =>
          replace (_cache (debug_print m b x).2) with (_cache x)
            by now destruct b end.
        rewrite (Hkb k v Hv). apply keeps_github_section. now apply Hkb. }
    rewrite Hrun in Hround |- *. cbn [snd] in Hround.
    destruct Hround as [Hs1 Hk1].
    rewrite IH.
    + rewrite Hs1, <- app_assoc. reflexivity.
    + intros p Hp. destruct (Hwarm p Hp) as [v Hv]. exists v. now apply Hk1.
Qed.

(** X17. When every repository of the team has an entry in the cache for
    the range, the whole loop over the members sends nothing to the
    code-hosting service: the requests it sends are the members'
    issue-tracker searches, one each, in order. *)
Theorem warm_run_only_searches (jc : JiraClient) (gh : GitHubClient)
    (s e : datetime) (verbose only_title : bool) (team : Team) (w : world) :
  (forall p, In p (projects team) ->
     is_Some (_cache w !! _get_cache_key (repo_name_of p) s e)) ->
  sent_since w (process_members jc gh s e verbose only_title team w).2
  = map (member_search jc s e) (members team).
Proof.
  intros Hwarm. unfold process_members, sent_since.
  rewrite warm_process_loop by assumption. rewrite drop_app_length.
  rewrite <- (enumerate1_members (members team)) at 2.
  now rewrite map_map.
Qed.

(** ** A member's round, part by part *)








End Run.

(** ** The recorded session *)

(** The three repositories of the session: [api] and [cli] answer,
    [billing] fails; alice's pulls of the two that answer are collected
    and the failure is reported once, for [billing]. *)
Example three_repositories_one_failure :
  let run := collect_prs iso_seconds dump_stub demo_github demo_client "alice"
               demo_start demo_end false demo_team fresh_world in
  run.1 = inr [ mk_pr 12 "Add retry" "open" "2024-03-01T08:00:00Z"
                  "2024-03-07T09:00:00Z" "api" "alice";
                mk_pr 12 "Add retry" "open" "2024-03-01T08:00:00Z"
                  "2024-03-07T09:00:00Z" "cli" "alice" ]
  /\ stdout run.2
     = [ "❌ Error fetching from billing: GitHub API error: 500 - Internal Server Error" ]
  /\ map url (sent run.2)
     = [ "https://api.github.com/repos/aziontech/api/pulls";
         "https://api.github.com/repos/aziontech/billing/pulls";
         "https://api.github.com/repos/aziontech/cli/pulls" ].
Proof. vm_compute. repeat split. Qed.

(** A hit is returned as it was stored: a later range of the same two
    days gets the records kept for the earlier one. *)
Example same_day_hit_is_not_refiltered :
  let first := get_all_pull_requests iso_seconds dump_stub demo_github demo_client
                 "api" demo_start demo_end false fresh_world in
  let later_start := mk_datetime 2024 3 6 13 0 0 0 in
  let later_end := mk_datetime 2024 3 7 13 0 0 0 in
  (get_all_pull_requests iso_seconds dump_stub demo_github demo_client "api"
     later_start later_end false first.2).1 = first.1
  /\ retained iso_seconds later_start later_end "2024-03-06T12:00:00Z" = false
  /\ exists pr, first.1 = inr [normalize "api" (mk_pull 12 "Add retry" "open"
                                 "2024-03-01T08:00:00Z" "2024-03-07T09:00:00Z" "alice");
                               pr]
                /\ updated_at pr = "2024-03-06T12:00:00Z".
Proof.
  vm_compute. split; [reflexivity |]. split; [reflexivity |].
  eexists. split; reflexivity.
Qed.

(** The end-to-end scenario of the specification: two members, one
    repository, three pulls of which two are in range, one per member.
    Each member's part of the report lists exactly one pull. *)
Example one_pull_per_member :
  let run := main iso_seconds no_cache_file dump_stub demo_github demo_jira
               small_team demo_start demo_end false true
               (Some "https://example.atlassian.net") (Some "bot") (Some "s3cret")
               (Some "t0ken") fresh_world in
  run.1 = inr tt
  /\ List.filter (String.prefix "  • [") (stdout run.2)
     = [ "  • [api] PR #12: Add retry... (open)";
         "  • [api] PR #11: Fix typo... (closed)" ]
  /\ length (sent run.2) = 3.
Proof. vm_compute. repeat split. Qed.

(** With the issue tracker failing for both members, each in its own
    way, both members are still reported, with their pulls. *)
Example issue_tracker_down :
  let run := process_members iso_seconds dump_stub demo_github jira_down
               demo_jira_client demo_client demo_start demo_end false false
               small_team fresh_world in
  run.1 = inr tt
  /\ stdout run.2
     = [ member_header (mk_member "alice@example.com" "alice");
         "----------------------------------------";
         "❌ Error fetching Jira activities: Jira API error: 401 - Unauthorized";
         "🔄 Pull Requests:";
         "  • [api] PR #12: Add retry... (open)";
         member_header (mk_member "bob@example.com" "bob");
         "----------------------------------------";
         "❌ Error fetching Jira activities: Connection refused";
         "🔄 Pull Requests:";
         "  • [api] PR #11: Fix typo... (closed)" ].
Proof. vm_compute. repeat split. Qed.

(** ** Instances *)

Lemma cache_key_same_day_witness :
  _get_cache_key "api" (mk_datetime 2024 3 7 9 15 0 0) (mk_datetime 2024 3 8 9 15 0 0)
  = _get_cache_key "api" (mk_datetime 2024 3 7 18 40 12 500)
      (mk_datetime 2024 3 8 18 40 12 500).
Proof. apply cache_key_same_day; reflexivity. Defined.

Lemma demo_pulls_parse :
  all_parse iso_seconds (map pull_updated_at demo_pulls).
Proof. repeat (constructor; [eexists; reflexivity |]). constructor. Qed.

Lemma demo_histories_parse :
  all_parse iso_seconds (map created (flat_map histories_of [demo_issue])).
Proof. repeat (constructor; [eexists; reflexivity |]). constructor. Qed.

Lemma retained_iff_in_range_witness :
  (get_all_pull_requests iso_seconds dump_stub demo_github demo_client "api"
     demo_start demo_end false fresh_world).1
  = inr [ mk_pr 12 "Add retry" "open" "2024-03-01T08:00:00Z" "2024-03-07T09:00:00Z"
            "api" "alice";
          mk_pr 11 "Fix typo" "closed" "2024-03-02T08:00:00Z" "2024-03-06T12:00:00Z"
            "api" "bob" ]
  /\ (get_user_activities iso_seconds demo_jira demo_jira_client "alice@example.com"
       demo_start demo_end false fresh_world).1
     = inr [ mk_activity "API-7" "Rate limits" "In Progress" "2024-03-07T09:30:00Z"
               [ change_desc (mk_item "status" (Some (JString "Open"))
                                (Some (JString "In Progress"))) ] ]
  /\ (retained iso_seconds demo_start demo_end "2024-03-07T09:00:00Z" = true
      <-> chron_le demo_start (mk_datetime 2024 3 7 9 0 0 0)
          /\ chron_le (mk_datetime 2024 3 7 9 0 0 0) demo_end).
Proof.
  destruct (retained_iff_in_range iso_seconds dump_stub demo_github demo_jira
              demo_client demo_jira_client "api" "alice@example.com"
              demo_start demo_end false fresh_world fresh_world
              (mk_response 200 "[...]" (inr demo_pulls)) demo_pulls
              (mk_response 200 "{...}" (inr (mk_search (Some [demo_issue]))))
              (mk_search (Some [demo_issue])))
    as (Hpulls & Hissues & _ & _ & Hwindow & _).
  - reflexivity.
  - reflexivity.
  - reflexivity.
  - reflexivity.
  - exact demo_pulls_parse.
  - reflexivity.
  - reflexivity.
  - reflexivity.
  - exact demo_histories_parse.
  - split; [rewrite Hpulls; reflexivity |].
    split; [rewrite Hissues; reflexivity |].
    apply (Hwindow "2024-03-07T09:00:00Z"
             (mk_parsed (mk_datetime 2024 3 7 9 0 0 0) (Some 0%Z))).
    reflexivity.
Defined.

Lemma second_fetch_from_cache_witness :
  let first := get_all_pull_requests iso_seconds dump_stub demo_github demo_client
                 "api" demo_start demo_end false fresh_world in
  exists w2,
    get_all_pull_requests iso_seconds dump_stub demo_github demo_client "api"
      demo_start demo_end false first.2
    = (inr (List.filter
              (fun pr => negb (String.eqb (updated_at pr) "2024-01-03T10:00:00Z"))
              (map (normalize "api") demo_pulls)), w2)
    /\ map url (sent w2) = ["https://api.github.com/repos/aziontech/api/pulls"].
Proof.
  intros first.
  destruct (second_fetch_from_cache iso_seconds dump_stub demo_github demo_client
              "api" demo_start demo_end false fresh_world first.2
              (List.filter
                 (fun pr => negb (String.eqb (updated_at pr) "2024-01-03T10:00:00Z"))
                 (map (normalize "api") demo_pulls)))
    as (w2 & Hsecond & Hsent1 & Hsent2 & _).
  - reflexivity.
  - vm_compute. reflexivity.
  - exists w2. split; [exact Hsecond |].
    rewrite Hsent2, Hsent1. reflexivity.
Defined.

Lemma ignored_fields_not_emitted_witness :
  exists r data,
    demo_jira 0 (search_request demo_jira_client
                   (jql_of "alice@example.com" demo_start demo_end)) = inr r
    /\ json r = inr data
    /\ Forall2
         (fun issue record =>
            changes record
            = map change_desc (emitted_items iso_seconds demo_start demo_end issue)
            /\ forall item,
                 field item = "description" \/ field item = "Bug Template" ->
                 ~ In item (emitted_items iso_seconds demo_start demo_end issue))
         (default [] (issues data))
         [mk_activity "API-7" "Rate limits" "In Progress" "2024-03-07T09:30:00Z"
            ["status: Open â†’ In Progress"]].
Proof.
  apply (ignored_fields_not_emitted iso_seconds demo_jira demo_jira_client
           "alice@example.com" demo_start demo_end false fresh_world
           (get_user_activities iso_seconds demo_jira demo_jira_client
              "alice@example.com" demo_start demo_end false fresh_world).2).
  vm_compute. reflexivity.
Defined.

Lemma one_record_per_issue_witness :
  exists rs,
    (get_user_activities iso_seconds demo_jira demo_jira_client "bob@example.com"
       (mk_datetime 2024 2 1 0 0 0 0) (mk_datetime 2024 2 2 0 0 0 0) false
       fresh_world).1 = inr rs
    /\ length rs = 1.
Proof.
  destruct (one_record_per_issue iso_seconds demo_jira demo_jira_client
              "bob@example.com" (mk_datetime 2024 2 1 0 0 0 0)
              (mk_datetime 2024 2 2 0 0 0 0) false fresh_world
              (mk_response 200 "{...}" (inr (mk_search (Some [demo_issue]))))
              (mk_search (Some [demo_issue])))
    as (rs & Hrun & Hlen & _).
  - reflexivity.
  - reflexivity.
  - reflexivity.
  - exact demo_histories_parse.
  - exists rs. split; [exact Hrun | exact Hlen].
Defined.

Lemma unusable_cache_file_loads_empty_witness :
  let w := mk_world ∅ (Content "{ not json") None [] [] in
  _load_cache no_cache_file w = (inr ∅, w)
  /\ GitHubClient_init no_cache_file (Some "t0ken") w
     = (inr demo_client, set_cache ∅ w).
Proof.
  intros w.
  destruct (unusable_cache_file_loads_empty iso_seconds no_cache_file dump_stub
              demo_github "t0ken" w) as (Hload & Hinit & _).
  - discriminate.
  - right. right. eexists _, _. split; reflexivity.
  - split; [exact Hload | exact Hinit].
Defined.

(** ** Where the wording of C7 fails *)

(** Repository [docs] answers 200 with a body that is not JSON: the
    fetch raises although the status is the success status. *)
Lemma success_status_yet_raises :
  ~ raises_iff_bad_status iso_seconds dump_stub demo_github demo_client "docs"
      demo_start demo_end false fresh_world.
Proof.
  unfold raises_iff_bad_status. intros [Honly _].
  destruct Honly as (r & Hr & Hstatus).
  - eexists _, _. vm_compute. reflexivity.
  - vm_compute in Hr. injection Hr as <-. apply Hstatus. reflexivity.
Qed.

(** ** Instances of the further properties *)

Lemma failed_fetch_not_cached_witness :
  let first := get_all_pull_requests iso_seconds dump_stub demo_github demo_client
                 "billing" demo_start demo_end false fresh_world in
  _cache first.2 = _cache fresh_world
  /\ map url (sent (get_all_pull_requests iso_seconds dump_stub demo_github
                      demo_client "billing" demo_start demo_end false first.2).2)
     = [ "https://api.github.com/repos/aziontech/billing/pulls";
         "https://api.github.com/repos/aziontech/billing/pulls" ].
Proof.
  intros first.
  destruct (failed_fetch_not_cached iso_seconds dump_stub demo_github demo_client
              "billing" demo_start demo_end false fresh_world first.2
              (api_error "GitHub"
                 (mk_response (P := list pull) 500 "Internal Server Error"
                    (inl (Raised JSONDecodeError
                            "Expecting value: line 1 column 1 (char 0)")))))
    as (Hcache & _ & _ & Hagain).
  - vm_compute. reflexivity.
  - split; [exact Hcache |]. rewrite Hagain. reflexivity.
Defined.

Lemma fetch_stores_under_its_key_witness :
  let first := get_all_pull_requests iso_seconds dump_stub demo_github demo_client
                 "api" demo_start demo_end false fresh_world in
  _cache first.2 = <["api_20240306_20240307" := demo_cache !!! "api_20240306_20240307"]> ∅.
Proof.
  intros first.
  destruct (fetch_stores_under_its_key iso_seconds dump_stub demo_github
              demo_client "api" demo_start demo_end false fresh_world first.2
              (demo_cache !!! "api_20240306_20240307")) as [Hcache _].
  - vm_compute. reflexivity.
  - exact Hcache.
Defined.

Lemma fetched_records_written_through_witness :
  let first := get_all_pull_requests iso_seconds dump_stub demo_github demo_client
                 "api" demo_start demo_end false fresh_world in
  cache_file first.2 = Content (dump_stub (_cache first.2))
  /\ printed_since fresh_world first.2 = [].
Proof.
  intros first.
  destruct (fetched_records_written_through iso_seconds dump_stub demo_github
              demo_client "api" demo_start demo_end false fresh_world first.2
              (demo_cache !!! "api_20240306_20240307")) as [_ Hdisk].
  - reflexivity.
  - vm_compute. reflexivity.
  - exact Hdisk.
Defined.

Lemma next_run_reuses_file_witness :
  let first := get_all_pull_requests iso_seconds dump_stub demo_github demo_client
                 "api" demo_start demo_end false fresh_world in
  let later := mk_world ∅ (cache_file first.2) None [] [] in
  exists gh2 w3 w4,
    GitHubClient_init load_stub (Some "t0ken") later = (inr gh2, w3)
    /\ get_all_pull_requests iso_seconds dump_stub demo_github gh2 "api"
         (mk_datetime 2024 3 6 17 45 0 0) (mk_datetime 2024 3 7 17 45 0 0) false w3
       = (inr (demo_cache !!! "api_20240306_20240307"), w4)
    /\ sent w4 = [].
Proof.
  intros first later.
  apply (next_run_reuses_file iso_seconds load_stub dump_stub demo_github
           demo_client "api" "t0ken" demo_start demo_end
           (mk_datetime 2024 3 6 17 45 0 0) (mk_datetime 2024 3 7 17 45 0 0)
           false fresh_world first.2 later).
  - reflexivity.
  - vm_compute. reflexivity.
  - reflexivity.
  - vm_compute. reflexivity.
  - discriminate.
  - reflexivity.
  - reflexivity.
  - reflexivity.
Defined.

Lemma inverted_range_keeps_nothing_witness :
  (get_all_pull_requests iso_seconds dump_stub demo_github demo_client "api"
     demo_end demo_start false fresh_world).1 = inr []
  /\ exists records,
       (get_user_activities iso_seconds demo_jira demo_jira_client
          "alice@example.com" demo_end demo_start false fresh_world).1
       = inr records
       /\ length records = 1
       /\ Forall (fun record => changes record = []) records.
Proof.
  destruct (inverted_range_keeps_nothing iso_seconds dump_stub demo_github
              demo_jira demo_client demo_jira_client "api" "alice@example.com"
              demo_end demo_start false fresh_world fresh_world
              (mk_response 200 "[...]" (inr demo_pulls)) demo_pulls
              (mk_response 200 "{...}" (inr (mk_search (Some [demo_issue]))))
              (mk_search (Some [demo_issue])))
    as (Hpulls & _ & Hissues).
  - intros Hle. apply dt_leb_le in Hle. discriminate Hle.
  - reflexivity.
  - reflexivity.
  - reflexivity.
  - reflexivity.
  - exact demo_pulls_parse.
  - reflexivity.
  - reflexivity.
  - reflexivity.
  - exact demo_histories_parse.
  - split; [exact Hpulls | exact Hissues].
Defined.

Lemma demo_dates_valid :
  valid_date demo_start /\ valid_date demo_end.
Proof. unfold valid_date. simpl. lia. Qed.

Lemma cache_key_injective_witness :
  _get_cache_key "api" demo_start demo_end = _get_cache_key "cli" demo_start demo_end
  <-> "api" = "cli" /\ date demo_start = date demo_start
      /\ date demo_end = date demo_end.
Proof.
  apply cache_key_injective; apply demo_dates_valid.
Defined.

Lemma demo_warm :
  let w := (get_all_pull_requests iso_seconds dump_stub demo_github demo_client
              "api" demo_start demo_end false fresh_world).2 in
  forall p, In p (projects small_team) ->
    is_Some (_cache w !! _get_cache_key (repo_name_of p) demo_start demo_end).
Proof.
  intros w p [<- | []]. eexists. vm_compute. reflexivity.
Qed.

Lemma warm_cache_needs_no_request_witness :
  let w := (get_all_pull_requests iso_seconds dump_stub demo_github demo_client
              "api" demo_start demo_end false fresh_world).2 in
  exists w',
    collect_prs iso_seconds dump_stub demo_github demo_client "bob" demo_start
      demo_end false small_team w
    = (inr (flat_map
              (fun p => List.filter (fun pr => String.eqb (author pr) "bob")
                          (cached_for (repo_name_of p) demo_start demo_end w))
              (projects small_team)), w')
    /\ sent w' = sent w.
Proof.
  intros w.
  destruct (warm_cache_needs_no_request iso_seconds dump_stub demo_github
              demo_client "bob" demo_start demo_end false small_team w demo_warm)
    as (w' & Hrun & Hsent & _).
  exists w'. split; [exact Hrun | exact Hsent].
Defined.

Lemma warm_run_only_searches_witness :
  let w := (get_all_pull_requests iso_seconds dump_stub demo_github demo_client
              "api" demo_start demo_end false fresh_world).2 in
  sent_since w
    (process_members iso_seconds dump_stub demo_github demo_jira demo_jira_client
       demo_client demo_start demo_end false false small_team w).2
  = map (member_search demo_jira_client demo_start demo_end) (members small_team).
Proof.
  intros w.
  apply (warm_run_only_searches iso_seconds dump_stub demo_github demo_jira
           demo_jira_client demo_client demo_start demo_end false false
           small_team w demo_warm).
Defined.
